(** * stockbench: the fundamental filter agent

    A shallow embedding of [stockbench/agents/fundamental_filter_agent.py]
    and the properties of its two functions,
    [_build_history_from_previous_decisions] and
    [filter_stocks_needing_fundamental].

    Python values are embedded as a small dynamically typed universe
    ([value]); operations that can raise return in the [result] monad, and
    [try]/[except] blocks are written out as matches on [Raise].  What the
    file takes from elsewhere (the clock, the prompt files, the parsers of
    the standard library, the classification client) is gathered in the
    record [externals], with the exceptions that building [LLMConfig] and
    [LLMClient] objects and rounding the payload may raise.  Logging has no
    effect on the results and is left out. *)

From Stdlib Require Import String Ascii List Bool ZArith QArith.
Import ListNotations.
Open Scope string_scope.

(** ** Python values *)

(** Numbers: Python's [int] and [float] compare and add across the two types
    ([0 == 0.0]); both are embedded as exact rationals, so rounding, NaN and
    infinities of IEEE floats are outside the model.  What is kept of the
    difference is the range: a number too large for a [float] is an [int],
    and turning it into a [float] raises ([beyond_float]).  [VDate iso] is a
    date-like object (it has [strftime]); [iso] is the text that
    [strftime("%Y-%m-%d")] gives on it.  [VObj] is a plain object with
    attributes.  A dict is an association list in insertion order with
    string keys. *)
#[warnings="-register-all"]
Inductive value : Type :=
| VNone
| VBool (b : bool)
| VNum (q : Q)
| VStr (s : string)
| VList (l : list value)
| VDict (d : list (string * value))
| VDate (iso : string)
| VObj (attrs : list (string * value)).

Definition dict : Type := list (string * value).

(** A Python dict has pairwise distinct keys. *)
Definition dict_wf (d : dict) : Prop := NoDup (map fst d).

Fixpoint dict_get (d : dict) (k : string) : option value :=
  match d with
  | [] => None
  | (k', v) :: rest => if String.eqb k k' then Some v else dict_get rest k
  end.

Definition dict_has (d : dict) (k : string) : bool :=
  match dict_get d k with Some _ => true | None => false end.

(** [d[k] = v]: an existing key keeps its position, a new key goes last. *)
Fixpoint dict_set (k : string) (v : value) (d : dict) : dict :=
  match d with
  | [] => [(k, v)]
  | (k', v') :: rest =>
      if String.eqb k k' then (k, v) :: rest else (k', v') :: dict_set k v rest
  end.

(** [d.get(k, default)] on a dict. *)
Definition dict_get_default (d : dict) (k : string) (default : value) : value :=
  match dict_get d k with Some v => v | None => default end.

(** Induction on values that goes through the lists and dicts in them. *)
Section ValueInduction.

Variable P : value -> Prop.
Hypothesis HNone : P VNone.
Hypothesis HBool : forall b, P (VBool b).
Hypothesis HNum : forall q, P (VNum q).
Hypothesis HStr : forall s, P (VStr s).
Hypothesis HList : forall l, Forall P l -> P (VList l).
Hypothesis HDict : forall d, Forall (fun kv => P (snd kv)) d -> P (VDict d).
Hypothesis HDate : forall iso, P (VDate iso).
Hypothesis HObj : forall attrs, P (VObj attrs).


End ValueInduction.

(** ** Exceptions and the error monad *)

Inductive exn : Type :=
| AttributeError (target : value) (attr : string)
| TypeError (what : string)
| KeyError (key : string)
| ValueError (msg : string)
| UnboundLocalError (name : string)
| OverflowError (what : string).

Inductive result (A : Type) : Type :=
| Ok (a : A)
| Raise (e : exn).

Arguments Ok {A} a.
Arguments Raise {A} e.

Definition bind {A B : Type} (m : result A) (f : A -> result B) : result B :=
  match m with
  | Ok a => f a
  | Raise e => Raise e
  end.

Notation "'do' x <- m ; k" := (bind m (fun x => k))
  (at level 10, x name, m at level 100, k at level 200).

(** ** Python operations on values *)

Definition Qlt_bool (a b : Q) : bool := negb (Qle_bool b a).

(** Truth value testing ([if v], [not v], [a or b]). *)
Definition truthy (v : value) : bool :=
  match v with
  | VNone => false
  | VBool b => b
  | VNum q => negb (Qeq_bool q 0)
  | VStr s => negb (String.eqb s "")
  | VList l => match l with [] => false | _ => true end
  | VDict d => match d with [] => false | _ => true end
  | VDate _ => true
  | VObj _ => true
  end.

(** [a or b] *)
Definition py_or (a b : value) : value := if truthy a then a else b.

(** Numeric reading of a value: [bool] is a subclass of [int]. *)
Definition num_of (v : value) : option Q :=
  match v with
  | VNum q => Some q
  | VBool true => Some 1%Q
  | VBool false => Some 0%Q
  | _ => None
  end.

(** [v == s] for a string [s]. *)
Definition py_eq_str (v : value) (s : string) : bool :=
  match v with
  | VStr s' => String.eqb s' s
  | _ => false
  end.

(** [v == q] for a number [q]; values that are not numbers compare unequal. *)
Definition py_eq_num (v : value) (q : Q) : bool :=
  match num_of v with
  | Some x => Qeq_bool x q
  | None => false
  end.

(** [v > q] for a number [q]. *)
Definition py_gt_num (v : value) (q : Q) : result bool :=
  match num_of v with
  | Some x => Ok (Qlt_bool q x)
  | None => Raise (TypeError "'>' not supported")
  end.

(** An [int] is turned into a [float] by rounding to nearest, ties to even:
    from [2^1024 - 2^970] on, halfway between the largest float and
    [2^1024], the conversion raises [OverflowError].  No [float] is that
    large, so a number of this magnitude is an [int]. *)
Definition float_limit : Q := inject_Z (2 ^ 1024 - 2 ^ 970).

Definition beyond_float (q : Q) : bool :=
  Qle_bool float_limit q || Qle_bool q (- float_limit).

Definition int_too_large : exn :=
  OverflowError "int too large to convert to float".

(** [acc + v] for a float accumulator: an [int] operand is turned into a
    [float] first. *)
Definition py_add_num (acc : Q) (v : value) : result Q :=
  match num_of v with
  | Some x => if beyond_float x then Raise int_too_large else Ok (acc + x)%Q
  | None => Raise (TypeError "unsupported operand type(s) for +=")
  end.

(** [v.get(k, default)]: only dicts have [get]. *)
Definition py_get (v : value) (k : string) (default : value) : result value :=
  match v with
  | VDict d => Ok (dict_get_default d k default)
  | _ => Raise (AttributeError v "get")
  end.

Definition is_substring (needle hay : string) : bool :=
  match String.index 0 needle hay with Some _ => true | None => false end.

(** [k in v] for a string [k]: key test on a dict, element test on a list,
    substring test on a string. *)
Definition py_contains (k : string) (v : value) : result bool :=
  match v with
  | VDict d => Ok (dict_has d k)
  | VList l => Ok (existsb (fun x => py_eq_str x k) l)
  | VStr s => Ok (is_substring k s)
  | _ => Raise (TypeError "argument is not iterable")
  end.

(** [v[k]] for a string [k]. *)
Definition py_index (v : value) (k : string) : result value :=
  match v with
  | VDict d =>
      match dict_get d k with
      | Some x => Ok x
      | None => Raise (KeyError k)
      end
  | VList _ => Raise (TypeError "list indices must be integers or slices, not str")
  | VStr _ => Raise (TypeError "string indices must be integers, not 'str'")
  | _ => Raise (TypeError "object is not subscriptable")
  end.

(** [v.name] *)
Definition py_getattr (v : value) (name : string) : result value :=
  match v with
  | VObj attrs =>
      match dict_get attrs name with
      | Some x => Ok x
      | None => Raise (AttributeError v name)
      end
  | _ => Raise (AttributeError v name)
  end.

(** [len(v)] *)
Definition py_len (v : value) : result nat :=
  match v with
  | VStr s => Ok (String.length s)
  | VList l => Ok (List.length l)
  | VDict d => Ok (List.length d)
  | _ => Raise (TypeError "object has no len()")
  end.

(** ** [_build_history_from_previous_decisions] *)

(** Lines 70-79: the body of the [if action == "hold" and ...] repair. *)
Definition hold_repair (current_features : value) (symbol : string)
    (target_cash_amount : value) : result value :=
  if truthy current_features then
    do present <- py_contains symbol current_features ;
    if present then
      do features <- py_index current_features symbol ;
      do position_state <- py_get features "position_state" (VDict []) ;
      do current_pos <- py_get position_state "current_position_value" (VNum 0) ;
      do positive <- py_gt_num current_pos 0 ;
      Ok (if positive then current_pos else target_cash_amount)
    else Ok target_cash_amount
  else Ok target_cash_amount.

(** Lines 63-88: one iteration of the loop body for a decision that is a
    dict; the value is the [history_record] dict. *)
Definition build_record (history_date current_features : value)
    (symbol : string) (decision : dict) : result value :=
  let action := dict_get_default decision "action" (VStr "hold") in
  let cash_change := dict_get_default decision "cash_change" (VNum 0) in
  let target_cash_amount := dict_get_default decision "target_cash_amount" (VNum 0) in
  do target_cash_amount' <-
    (if py_eq_str action "hold" && py_eq_num target_cash_amount 0
        && py_eq_num cash_change 0
     then hold_repair current_features symbol target_cash_amount
     else Ok target_cash_amount) ;
  Ok (VDict [ ("date", history_date);
              ("action", action);
              ("cash_change", cash_change);
              ("target_cash_amount", target_cash_amount');
              ("reasons", dict_get_default decision "reasons" (VList []));
              ("confidence", dict_get_default decision "confidence" (VNum (1 # 2))) ]).

(** Lines 58-91: the loop over [decisions.items()].  [history] is the dict
    being filled; an exception leaves it as it is at that moment and is
    returned next to it. *)
Fixpoint history_loop (history_date current_features : value)
    (decisions : dict) (history : dict) : dict * option exn :=
  match decisions with
  | [] => (history, None)
  | (symbol, decision) :: rest =>
      match decision with
      | VDict d =>
          match build_record history_date current_features symbol d with
          | Ok record =>
              history_loop history_date current_features rest
                (dict_set symbol (VList [record]) history)
          | Raise e => (history, Some e)
          end
      | _ => history_loop history_date current_features rest history
      end
  end.

(** Line 44: the entries other than ["__meta__"]. *)
Definition decisions_of (items : dict) : dict :=
  filter (fun kv => negb (String.eqb (fst kv) "__meta__")) items.

(** Lines 47-56. *)
Definition history_date_of (items : dict) : value :=
  match dict_get items "__meta__" with
  | Some (VDict meta) => dict_get_default meta "date" VNone
  | _ => VNone
  end.

(** Lines 43-96: the [try] block, with the state of [history] when it is
    left and the exception caught by [except Exception], if any. *)
Definition build_history_try (previous_decisions current_features : value)
    : dict * option exn :=
  match previous_decisions with
  | VDict items =>
      history_loop (history_date_of items) current_features (decisions_of items) []
  | _ => ([], Some (AttributeError previous_decisions "items"))
  end.

Definition _build_history_from_previous_decisions
    (previous_decisions current_features : value) : dict :=
  if truthy previous_decisions
  then fst (build_history_try previous_decisions current_features)
  else [].

(** ** External collaborators *)

(** The selected LLM configuration handed to the client ([LLMConfig]). *)
Record llm_config : Type := {
  provider : string;
  base_url : string;
  model : string;
  temperature : Q;
  max_tokens : Z;
  seed : value;
  timeout_sec : Q;
  max_retries : Z;
  backoff_factor : Q;
  cache_enabled : bool;
  cache_ttl_hours : Z;
  budget_prompt_tokens : Z;
  budget_completion_tokens : Z;
  auth_required : value;
  cache_read_enabled : option bool;
  cache_write_enabled : option bool
}.

(** One call of [client.generate_json].  [req_payload] is the object given
    to [json.dumps] at line 300; the user prompt is the JSON text of it. *)
Record request : Type := {
  req_task : string;
  req_config : llm_config;
  req_system_prompt : string;
  req_payload : value;
  req_trade_date : value;
  req_run_id : value;
  req_retry_attempt : Z
}.

(** What the call does: it returns [(data, meta)] or raises an exception
    whose [str] is [msg]. *)
Inductive outcome : Type :=
| Returned (data meta : value)
| Raised (msg : string).

(** Iteration order of a Python [set] of strings built from the elements of
    a list: each element once, in an order the language does not fix. *)
Record set_order : Type := {
  iterate :> list string -> list string;
  iterate_nodup : forall l, NoDup (iterate l);
  iterate_in : forall l x, In x (iterate l) <-> In x l
}.

(** Everything the function takes from outside the file. *)
Record externals : Type := {
  (** [datetime.now().strftime("%Y-%m-%d")] *)
  today : string;
  (** [datetime.fromisoformat(s).strftime("%Y-%m-%d")]; [None] when
      [fromisoformat] raises *)
  fromisoformat_date : string -> option string;
  (** content of the file [prompts/<name>]; [None] when reading it raises *)
  prompt_file : string -> option string;
  (** [float(s)] and [int(s)] on a string; [None] when they raise *)
  float_of_string : string -> option Q;
  int_of_string : string -> option Z;
  (** [str(v)] of a value that is not a string *)
  str_text : value -> string;
  (** [str(e)] of an exception raised by a built-in operation *)
  builtin_text : exn -> string;
  (** [round(x, 2)] *)
  round_number : Q -> Q;
  set_iteration : set_order;
  generate_json : request -> outcome;
  (** the exception, if any, that [LLMConfig(...)] raises for these fields,
      that [round_numbers_in_obj(obj, 2)] raises, and that [LLMClient()]
      raises: the three belong to other modules *)
  llm_config_error : llm_config -> option exn;
  rounding_error : value -> option exn;
  client_error : option exn
}.

(** A call into another module that returns nothing the model needs. *)
Definition collaborator (failure : option exn) : result unit :=
  match failure with
  | Some e => Raise e
  | None => Ok tt
  end.

(** [str(v)] *)
Definition py_str (E : externals) (v : value) : string :=
  match v with
  | VStr s => s
  | _ => str_text E v
  end.

(** [str(e)] *)
Definition str_exn (E : externals) (e : exn) : string :=
  match e with
  | ValueError msg => msg
  | _ => builtin_text E e
  end.

(** [float(v)] *)
Definition py_float (E : externals) (v : value) : result Q :=
  match v with
  | VNum q => if beyond_float q then Raise int_too_large else Ok q
  | VBool b => Ok (if b then 1 else 0)%Q
  | VStr s =>
      match float_of_string E s with
      | Some q => Ok q
      | None => Raise (ValueError "could not convert string to float")
      end
  | _ => Raise (TypeError "float() argument must be a string or a real number")
  end.

(** [int(v)]: a number is truncated towards zero. *)
Definition py_int (E : externals) (v : value) : result Z :=
  match v with
  | VNum q => Ok (Z.quot (Qnum q) (Zpos (Qden q)))
  | VBool b => Ok (if b then 1 else 0)%Z
  | VStr s =>
      match int_of_string E s with
      | Some z => Ok z
      | None => Raise (ValueError "invalid literal for int() with base 10")
      end
  | _ => Raise (TypeError "int() argument must be a string or a real number")
  end.

(** [a - q] for a float [q]: an [int] [a] is turned into a [float] first. *)
Definition py_sub_num (a : value) (q : Q) : result value :=
  match num_of a with
  | Some x => if beyond_float x then Raise int_too_large else Ok (VNum (x - q)%Q)
  | None => Raise (TypeError "unsupported operand type(s) for -")
  end.

Definition lower_ascii (c : ascii) : ascii :=
  let n := nat_of_ascii c in
  if (65 <=? n)%nat && (n <=? 90)%nat then ascii_of_nat (n + 32) else c.

(** [s.lower()] on ASCII text. *)
Fixpoint lower (s : string) : string :=
  match s with
  | EmptyString => EmptyString
  | String c rest => String (lower_ascii c) (lower rest)
  end.

(** [s.replace('Z', '+00:00')] *)
Fixpoint replace_Z (s : string) : string :=
  match s with
  | EmptyString => EmptyString
  | String c rest =>
      if Ascii.eqb c "Z"%char then "+00:00" ++ replace_Z rest
      else String c (replace_Z rest)
  end.

(** Modelled from the spec: [round_numbers_in_obj] of
    [stockbench.utils.formatting], which is not part of the sources here;
    [4.4] has the numeric values of the payload rounded to a fixed
    precision, the structure is kept. *)
Fixpoint round_numbers_in_obj (round : Q -> Q) (v : value) : value :=
  match v with
  | VNum q => VNum (round q)
  | VList l => VList (map (round_numbers_in_obj round) l)
  | VDict d =>
      VDict (map (fun kv => let '(k, x) := kv in (k, round_numbers_in_obj round x)) d)
  | _ => v
  end.

(** [json.dumps] raises [TypeError] on an object that is not made of
    [None], booleans, numbers, strings, lists and dicts. *)
Fixpoint json_serializable (v : value) : bool :=
  match v with
  | VList l => forallb json_serializable l
  | VDict d => forallb (fun kv => let '(_, x) := kv in json_serializable x) d
  | VDate _ => false
  | VObj _ => false
  | _ => true
  end.

Definition json_dumps (v : value) : result value :=
  if json_serializable v then Ok v
  else Raise (TypeError "Object is not JSON serializable").

(** ** [filter_stocks_needing_fundamental] *)

(** One element of [features_list]: a dict with a string under ["symbol"]
    and the feature snapshot under ["features"]; [None] is an absent key. *)
Record item : Type := {
  item_symbol : option string;
  item_features : option value
}.

(** [item.get("symbol", "UNKNOWN")] *)
Definition symbol_of (it : item) : string :=
  match item_symbol it with Some s => s | None => "UNKNOWN" end.

(** [item.get("features", {})] *)
Definition features_of (it : item) : value :=
  match item_features it with Some f => f | None => VDict [] end.

(** [[item.get("symbol", "UNKNOWN") for item in features_list]] *)
Definition symbols_of (features_list : list item) : list string :=
  map symbol_of features_list.

(** The returned dictionary. *)
Record filter_result : Type := {
  stocks_need_fundamental : list value;
  reasoning : dict
}.

(** [{symbol: text(symbol) for symbol in symbols}] *)
Definition reasoning_for (text : string -> string) (symbols : list string) : dict :=
  fold_left (fun d symbol => dict_set symbol (VStr (text symbol)) d) symbols [].

(** The conservative result: every input symbol, each with [text]. *)
Definition require_all (features_list : list item) (text : string -> string)
    : filter_result :=
  let symbols := symbols_of features_list in
  {| stocks_need_fundamental := map VStr symbols;
     reasoning := reasoning_for text symbols |}.

Definition llm_disabled_text (symbol : string) : string :=
  "LLM not enabled, requiring fundamental analysis for " ++ symbol
  ++ " as conservative fallback".

Definition invalid_format_text (symbol : string) : string :=
  "LLM returned invalid format, requiring fundamental analysis as fallback".

Definition invalid_result_text (symbol : string) : string :=
  "Invalid filter result format, requiring fundamental analysis as fallback".

(** [str(e)[:50]] inside the message of line 372. *)
Definition error_text (msg : string) (symbol : string) : string :=
  "Error during filtering (" ++ String.substring 0 50 msg
  ++ "), requiring fundamental analysis as fallback".

Definition no_llm_configuration : exn :=
  ValueError "No LLM configuration found. Use --llm-profile parameter to specify configuration.".

(** *** Lines 140-188: configuration *)

(** Lines 173-184. *)
Definition cache_flags (cache_mode : string) : option bool * option bool :=
  if String.eqb cache_mode "off" then (Some false, Some false)
  else if String.eqb cache_mode "llm_write_only" then (Some false, Some true)
  else if String.eqb cache_mode "full" then (Some true, Some true)
  else (None, None).

(** Line 158: the [or] chain evaluates its operands from the left and stops
    at the first true one. *)
Definition select_model (filter_cfg llm_cfg_raw : value) : result value :=
  do m1 <- py_get filter_cfg "model" VNone ;
  if truthy m1 then Ok m1 else
  do m2 <- py_get llm_cfg_raw "fundamental_filter_model" VNone ;
  if truthy m2 then Ok m2 else
  do m3 <- py_get llm_cfg_raw "model" VNone ;
  if truthy m3 then Ok m3 else
  py_get llm_cfg_raw "analyzer_model" (VStr "gpt-4o-mini").

(** Lines 148-184: [LLMConfig(...)] with its keyword arguments evaluated in
    order, then the cache switches. *)
Definition build_llm_config (E : externals) (cfg llm_cfg_raw : value)
    : result llm_config :=
  let cfg' := py_or cfg (VDict []) in
  do agents <- py_get cfg' "agents" (VDict []) ;
  do dual_agent_cfg <- py_get agents "dual_agent" (VDict []) ;
  do filter_cfg <- py_get dual_agent_cfg "fundamental_filter" (VDict []) ;
  do cache <- py_get cfg' "cache" (VDict []) ;
  do mode <- py_get cache "mode" (VStr "full") ;
  let cache_mode := lower (py_str E mode) in
  do provider <- py_get llm_cfg_raw "provider" (VStr "openai-compatible") ;
  do base_url <- py_get llm_cfg_raw "base_url" (VStr "https://api.openai.com/v1") ;
  do model <- select_model filter_cfg llm_cfg_raw ;
  do temperature <- py_get filter_cfg "temperature" (VNum (3 # 10)) ;
  do temperature <- py_float E temperature ;
  do max_tokens <- py_get filter_cfg "max_tokens" (VNum 4000) ;
  do max_tokens <- py_int E max_tokens ;
  do seed <- py_get llm_cfg_raw "seed" VNone ;
  do timeout_sec <- py_get llm_cfg_raw "timeout_sec" (VNum 60) ;
  do timeout_sec <- py_float E timeout_sec ;
  do retry <- py_get llm_cfg_raw "retry" (VDict []) ;
  do max_retries <- py_get retry "max_retries" (VNum 3) ;
  do max_retries <- py_int E max_retries ;
  do retry <- py_get llm_cfg_raw "retry" (VDict []) ;
  do backoff_factor <- py_get retry "backoff_factor" (VNum (1 # 2)) ;
  do backoff_factor <- py_float E backoff_factor ;
  do llm_cache <- py_get llm_cfg_raw "cache" (VDict []) ;
  do enabled <- py_get llm_cache "enabled" (VBool true) ;
  do llm_cache <- py_get llm_cfg_raw "cache" (VDict []) ;
  do ttl_hours <- py_get llm_cache "ttl_hours" (VNum 24) ;
  do ttl_hours <- py_int E ttl_hours ;
  do budget <- py_get llm_cfg_raw "budget" (VDict []) ;
  do max_prompt_tokens <- py_get budget "max_prompt_tokens" (VNum 200000) ;
  do max_prompt_tokens <- py_int E max_prompt_tokens ;
  do budget <- py_get llm_cfg_raw "budget" (VDict []) ;
  do max_completion_tokens <- py_get budget "max_completion_tokens" (VNum 200000) ;
  do max_completion_tokens <- py_int E max_completion_tokens ;
  do auth_required <- py_get llm_cfg_raw "auth_required" VNone ;
  Ok {| provider := py_str E provider;
        base_url := py_str E base_url;
        model := py_str E model;
        temperature := temperature;
        max_tokens := max_tokens;
        seed := seed;
        timeout_sec := timeout_sec;
        max_retries := max_retries;
        backoff_factor := backoff_factor;
        cache_enabled := truthy enabled;
        cache_ttl_hours := ttl_hours;
        budget_prompt_tokens := max_prompt_tokens;
        budget_completion_tokens := max_completion_tokens;
        auth_required := auth_required;
        cache_read_enabled := fst (cache_flags cache_mode);
        cache_write_enabled := snd (cache_flags cache_mode) |}.

Definition default_prompt : string :=
  "System: You are a fundamental filter agent responsible for determining which stocks need fundamental analysis. Output compliant filter results in JSON format.".

(** Lines 19-25: [os.path.join] is outside the [try] and wants a string. *)
Definition _load_prompt (E : externals) (name : value) : result string :=
  match name with
  | VStr n =>
      Ok (match prompt_file E n with Some text => text | None => default_prompt end)
  | _ => Raise (TypeError "expected str, bytes or os.PathLike object")
  end.

(** Lines 187-188. *)
Definition load_system_prompt (E : externals) (cfg : value) : result string :=
  let cfg' := py_or cfg (VDict []) in
  do agents <- py_get cfg' "agents" (VDict []) ;
  do dual_agent_cfg <- py_get agents "dual_agent" (VDict []) ;
  do filter_cfg <- py_get dual_agent_cfg "fundamental_filter" (VDict []) ;
  do prompt_name <- py_get filter_cfg "prompt" (VStr "fundamental_filter_v1.txt") ;
  _load_prompt E prompt_name.

(** *** Lines 190-251: the request payload *)

(** Lines 199-202: the sections other than ["fundamental_data"]. *)
Definition filter_features (features : value) : result dict :=
  match features with
  | VDict d =>
      Ok (filter (fun kv => negb (String.eqb (fst kv) "fundamental_data")) d)
  | _ => Raise (AttributeError features "items")
  end.

(** Lines 205: [filtered_features.get("position_state", {}).get("current_position_value", 0.0)] *)
Definition position_value_of (filtered_features : dict) : result value :=
  do position_state <- py_get (VDict filtered_features) "position_state" (VDict []) ;
  py_get position_state "current_position_value" (VNum 0).

(** Lines 194-211: the loop filling [symbols] and [total_current_position]. *)
Fixpoint symbols_loop (features_list : list item) (symbols : dict)
    (total_current_position : Q) : result (dict * Q) :=
  match features_list with
  | [] => Ok (symbols, total_current_position)
  | it :: rest =>
      let symbol := symbol_of it in
      let features := features_of it in
      do filtered_features <- filter_features features ;
      do current_pos_value <- position_value_of filtered_features ;
      do total <- py_add_num total_current_position current_pos_value ;
      symbols_loop rest
        (dict_set symbol (VDict [("features", VDict filtered_features)]) symbols)
        total
  end.

(** Lines 214-224: [(total_assets, available_cash)]. *)
Definition portfolio_snapshot (E : externals) (cfg ctx : value)
    (total_current_position : Q) : result (value * value) :=
  do portfolio_cfg <-
    (if truthy cfg then py_get cfg "portfolio" (VDict []) else Ok (VDict [])) ;
  do live <- (if truthy ctx then py_contains "portfolio" ctx else Ok false) ;
  if live then
    do portfolio <- py_index ctx "portfolio" ;
    do cash <- py_getattr portfolio "cash" ;
    do current_cash <- py_float E cash ;
    Ok (VNum (current_cash + total_current_position)%Q, VNum current_cash)
  else
    do total_assets <- py_get portfolio_cfg "total_cash" (VNum 100000) ;
    do available_cash <- py_sub_num total_assets total_current_position ;
    Ok (total_assets, available_cash).

(** Lines 233-237. *)
Definition current_features_of (features_list : list item) : dict :=
  fold_left (fun d it => dict_set (symbol_of it) (features_of it) d) features_list [].

(** Lines 227-240. *)
Definition history_of (features_list : list item)
    (previous_decisions decision_history : value) : result value :=
  if truthy decision_history then
    do _n <- py_len decision_history ;
    Ok decision_history
  else
    Ok (VDict (_build_history_from_previous_decisions previous_decisions
                 (VDict (current_features_of features_list)))).

(** Lines 243-251. *)
Definition filter_input_of (total_assets available_cash : value)
    (total_current_position : Q) (symbols : dict) (history : value) : value :=
  VDict [ ("portfolio_info",
           VDict [ ("total_assets", total_assets);
                   ("available_cash", available_cash);
                   ("position_value", VNum total_current_position) ]);
          ("symbols", VDict symbols);
          ("history", history) ].

(** *** Lines 253-297: the trade date *)

(** The statements [from datetime import datetime] at lines 289 and 295 bind
    the name [datetime] in the body of the function, so the name is a local
    variable of the whole body and the module-level import of line 7 is
    not visible in it.  Reading a local variable that has no value yet
    raises [UnboundLocalError]. *)
Definition read_local (name : string) (bound : bool) : result unit :=
  if bound then Ok tt else Raise (UnboundLocalError name).

(** While the loop of lines 258-276 runs, neither of the two statements has
    been executed. *)
Definition datetime_bound_in_loop : bool := false.

(** Lines 272-273, inside the inner [try]. *)
Definition parse_timestamp (E : externals) (timestamp : string) : result string :=
  do _dt <- read_local "datetime" datetime_bound_in_loop ;
  match fromisoformat_date E (replace_Z timestamp) with
  | Some d => Ok d
  | None => Raise (ValueError "Invalid isoformat string")
  end.

(** Lines 258-276: [Some d] when the loop is left by [break] with
    [trade_date = d], [None] when it runs to its end. *)
Fixpoint scan_market_data (E : externals) (features_list : list item)
    : result (option value) :=
  match features_list with
  | [] => Ok None
  | it :: rest =>
      do market_data <- py_get (features_of it) "market_data" (VDict []) ;
      do has_date <- py_contains "date" market_data ;
      if has_date then
        do d <- py_index market_data "date" ;
        Ok (Some d)
      else
        do has_timestamp <- py_contains "timestamp" market_data ;
        if has_timestamp then
          do timestamp <- py_index market_data "timestamp" ;
          match timestamp with
          | VStr ts =>
              match parse_timestamp E ts with
              | Ok d => Ok (Some (VStr d))
              | Raise _ => scan_market_data E rest
              end
          | _ => scan_market_data E rest
          end
        else scan_market_data E rest
  end.

(** Lines 279-285. *)
Definition date_from_ctx (ctx trade_date : value) : result value :=
  if negb (truthy trade_date) && truthy ctx then
    do has_date <- py_contains "date" ctx ;
    if has_date then
      do ctx_date <- py_index ctx "date" ;
      match ctx_date with
      | VDate iso => Ok (VStr iso)
      | VObj attrs =>
          if dict_has attrs "strftime"
          then Raise (TypeError "object is not callable")
          else Ok trade_date
      | VStr s => Ok (VStr s)
      | _ => Ok trade_date
      end
    else Ok trade_date
  else Ok trade_date.

(** Lines 256-291: the body of the [try]. *)
Definition resolve_date_try (E : externals) (features_list : list item)
    (ctx : value) : result value :=
  match features_list with
  | [] => Ok VNone
  | _ :: _ =>
      do found <- scan_market_data E features_list ;
      let trade_date := match found with Some d => d | None => VNone end in
      do trade_date <- date_from_ctx ctx trade_date ;
      if negb (truthy trade_date) then Ok (VStr (today E)) else Ok trade_date
  end.

(** Lines 254-297. *)
Definition resolve_trade_date (E : externals) (features_list : list item)
    (ctx : value) : value :=
  match resolve_date_try E features_list ctx with
  | Ok trade_date => trade_date
  | Raise _ => VStr (today E)
  end.

(** *** Lines 139-302: everything before the call *)

(** What the function holds when it reaches the [try] of line 305. *)
Record prepared : Type := {
  filter_input : value;
  history : value;
  the_request : request
}.

Definition prepare (E : externals) (features_list : list item) (cfg : value)
    (run_id ctx previous_decisions decision_history : value) : result prepared :=
  do llm_cfg_raw <- py_get (py_or cfg (VDict [])) "llm" (VDict []) ;
  if negb (truthy llm_cfg_raw) then Raise no_llm_configuration else
  do llm_cfg <- build_llm_config E cfg llm_cfg_raw ;
  do _config <- collaborator (llm_config_error E llm_cfg) ;
  do system_prompt <- load_system_prompt E cfg ;
  do filled <- symbols_loop features_list [] 0 ;
  let '(symbols, total_current_position) := filled in
  do snapshot <- portfolio_snapshot E cfg ctx total_current_position ;
  let '(total_assets, available_cash) := snapshot in
  do history <- history_of features_list previous_decisions decision_history ;
  let filter_input :=
    filter_input_of total_assets available_cash total_current_position
      symbols history in
  let trade_date := resolve_trade_date E features_list ctx in
  do _rounded <- collaborator (rounding_error E filter_input) ;
  do payload <- json_dumps (round_numbers_in_obj (round_number E) filter_input) ;
  do _client <- collaborator (client_error E) ;
  Ok {| filter_input := filter_input;
        history := history;
        the_request :=
          {| req_task := "fundamental_filter";
             req_config := llm_cfg;
             req_system_prompt := system_prompt;
             req_payload := payload;
             req_trade_date := trade_date;
             req_run_id := run_id;
             req_retry_attempt := 0 |} |}.

(** *** Lines 309-364: the response *)

(** A list or a dict cannot be looked up in a set. *)
Definition hashable (v : value) : bool :=
  match v with
  | VList _ => false
  | VDict _ => false
  | _ => true
  end.

(** [symbol in input_symbols] for an element of the returned list. *)
Definition in_input_symbols (input_symbols : list string) (symbol : value)
    : result bool :=
  if hashable symbol then
    Ok (match symbol with
        | VStr s => existsb (String.eqb s) input_symbols
        | _ => false
        end)
  else Raise (TypeError (match symbol with
                         | VList _ => "unhashable type: 'list'"
                         | _ => "unhashable type: 'dict'"
                         end)).

(** Line 351. *)
Fixpoint drop_hallucinated (input_symbols : list string)
    (stocks : list value) : result (list value) :=
  match stocks with
  | [] => Ok []
  | symbol :: rest =>
      do keep <- in_input_symbols input_symbols symbol ;
      do kept <- drop_hallucinated input_symbols rest ;
      Ok (if keep then symbol :: kept else kept)
  end.

Definition requires_text : string :=
  "Requires fundamental analysis (no specific reasoning provided)".

Definition sufficient_text : string :=
  "Technical analysis sufficient (no specific reasoning provided)".

(** Lines 344-348: one iteration. *)
Definition fill_one (stocks : list value) (reasoning : dict) (symbol : string)
    : dict :=
  if dict_has reasoning symbol then reasoning
  else if existsb (fun x => py_eq_str x symbol) stocks
       then dict_set symbol (VStr requires_text) reasoning
       else dict_set symbol (VStr sufficient_text) reasoning.

(** Lines 343-348: the loop over the set [input_symbols]. *)
Definition fill_reasoning (order : list string) (stocks : list value)
    (reasoning : dict) : dict :=
  fold_left (fill_one stocks) order reasoning.

(** Lines 309-364: the body of the [try] after the call has returned. *)
Definition parse_response (E : externals) (features_list : list item)
    (history data meta : value) : result filter_result :=
  do _cached <- py_get meta "cached" (VBool false) ;
  do _latency <- py_get meta "latency_ms" (VNum 0) ;
  match data with
  | VDict ((_ :: _) as d) =>
      let stocks := dict_get_default d "stocks_need_fundamental" (VList []) in
      let reasoning := dict_get_default d "reasoning" (VDict []) in
      match stocks with
      | VList stocks =>
          let reasoning := match reasoning with VDict r => r | _ => [] end in
          let input_symbols := symbols_of features_list in
          let reasoning :=
            fill_reasoning (set_iteration E input_symbols) stocks reasoning in
          do filtered <- drop_hallucinated input_symbols stocks ;
          do _n <- py_len history ;
          Ok {| stocks_need_fundamental := filtered; reasoning := reasoning |}
      | _ => Ok (require_all features_list invalid_result_text)
      end
  | _ => Ok (require_all features_list invalid_format_text)
  end.

(** Lines 305-374: the call, its result and the [except Exception]. *)
Definition call_and_parse (E : externals) (features_list : list item)
    (p : prepared) : filter_result :=
  match generate_json E (the_request p) with
  | Raised msg => require_all features_list (error_text msg)
  | Returned data meta =>
      match parse_response E features_list (history p) data meta with
      | Ok r => r
      | Raise e => require_all features_list (error_text (str_exn E e))
      end
  end.

(** The function: the calls it made to the classification service, and what
    it returned or raised. *)
Definition filter_stocks_needing_fundamental (E : externals)
    (features_list : list item) (cfg : value) (enable_llm : bool)
    (run_id ctx previous_decisions decision_history : value)
    : list request * result filter_result :=
  if negb enable_llm then
    ([], Ok (require_all features_list llm_disabled_text))
  else
    match prepare E features_list cfg run_id ctx previous_decisions
            decision_history with
    | Raise e => ([], Raise e)
    | Ok p => ([the_request p], Ok (call_and_parse E features_list p))
    end.

(** ** Concrete inputs *)

(** A set that is walked in the order of first occurrence. *)
Definition first_occurrence_order : set_order :=
  {| iterate := nodup string_dec;
     iterate_nodup := NoDup_nodup string_dec;
     iterate_in := nodup_In string_dec |}.

(** A world whose clock shows 2026-01-15, with no prompt files, and a
    classification service that behaves as [service]. *)
Definition world (service : request -> outcome) : externals :=
  {| today := "2026-01-15";
     fromisoformat_date := fun s => Some (String.substring 0 10 s);
     prompt_file := fun _ => None;
     float_of_string := fun _ => None;
     int_of_string := fun _ => None;
     str_text := fun _ => "<object>";
     builtin_text := fun e =>
       match e with
       | AttributeError _ attr => "object has no attribute '" ++ attr ++ "'"
       | TypeError what => what
       | KeyError key => "'" ++ key ++ "'"
       | ValueError msg => msg
       | UnboundLocalError name =>
           "cannot access local variable '" ++ name
           ++ "' where it is not associated with a value"
       | OverflowError what => what
       end;
     round_number := fun q => q;
     set_iteration := first_occurrence_order;
     generate_json := service;
     llm_config_error := fun _ => None;
     rounding_error := fun _ => None;
     client_error := None |}.

Definition candidate (symbol : string) (features : dict) : item :=
  {| item_symbol := Some symbol; item_features := Some (VDict features) |}.

Definition position (v : Q) : string * value :=
  ("position_state", VDict [("current_position_value", VNum v)]).

(** [{"llm": {"model": "gpt-4o-mini"}}] *)
Definition minimal_cfg : value :=
  VDict [("llm", VDict [("model", VStr "gpt-4o-mini")])].

Definition three_candidates : list item :=
  [ candidate "AAPL" [position 12000; ("fundamental_data", VDict [("pe", VNum 31)])];
    candidate "MSFT" [position 8000];
    candidate "GOOGL" [("market_data", VDict [("close", VNum 140)])] ].

Definition ok_meta_fields : dict :=
  [("cached", VBool false); ("latency_ms", VNum 850)].

Definition ok_meta : value := VDict ok_meta_fields.

(** A candidate whose dict has no ["symbol"] key. *)
Definition anonymous_candidate : item :=
  {| item_symbol := None; item_features := Some (VDict [position 500]) |}.

Definition mixed_candidates : list item :=
  [ candidate "AAPL" [position 12000]; anonymous_candidate;
    candidate "MSFT" [position 8000] ].

(** The service is down. *)
Definition refusing_service (r : request) : outcome :=
  Raised "connection refused".

(** ** What the claims speak of *)

(** The failure cases of the classification call: it raises, or what it
    returns is not a non-empty mapping, or the mapping has something other
    than a list under ["stocks_need_fundamental"]. *)
Definition failure_case (o : outcome) : bool :=
  match o with
  | Raised _ => true
  | Returned data _ =>
      match data with
      | VDict ((_ :: _) as d) =>
          match dict_get d "stocks_need_fundamental" with
          | Some (VList _) => false
          | Some _ => true
          | None => false
          end
      | _ => true
      end
  end.

(** What is returned is a mapping that is not empty. *)
Definition nonempty_mapping (data : value) : bool :=
  match data with
  | VDict (_ :: _) => true
  | _ => false
  end.

(** The symbol a candidate goes by: the one it carries, ["UNKNOWN"] when it
    carries none. *)
Inductive goes_by (it : item) : string -> Prop :=
| goes_by_symbol (s : string) : item_symbol it = Some s -> goes_by it s
| goes_by_unknown : item_symbol it = None -> goes_by it "UNKNOWN".

(** The element of a required list that stands for a candidate. *)
Definition stands_for (it : item) (v : value) : Prop :=
  exists s, goes_by it s /\ v = VStr s.

(** The reasoning map the response carries: what is under ["reasoning"]
    when that is a mapping, nothing otherwise. *)
Definition supplied_reasoning (d : dict) : dict :=
  match dict_get_default d "reasoning" (VDict []) with
  | VDict r => r
  | _ => []
  end.

(** An element of the returned list that is one of the input symbols. *)
Definition is_input_symbol (input_symbols : list string) (v : value) : bool :=
  match v with
  | VStr s => existsb (String.eqb s) input_symbols
  | _ => false
  end.

(** The list names the symbol. *)
Definition mentions (stocks : list value) (symbol : string) : bool :=
  existsb (fun x => py_eq_str x symbol) stocks.

(** The reasoning synthesized for a symbol the response left out. *)
Definition default_reasoning (stocks : list value) (symbol : string) : value :=
  VStr (if mentions stocks symbol then requires_text else sufficient_text).

(** A service that answers every request with [data] and [ok_meta]. *)
Definition answering (data : value) (r : request) : outcome :=
  Returned data ok_meta.

(** An answer whose list holds a mapping instead of a symbol. *)
Definition nested_stocks : list value :=
  [VStr "AAPL"; VDict [("symbol", VStr "MSFT")]].

Definition nested_fields : dict :=
  [ ("stocks_need_fundamental", VList nested_stocks);
    ("reasoning", VDict [("AAPL", VStr "earnings due")]) ].

Definition nested_answer : value := VDict nested_fields.

(** An answer that names a symbol nobody asked about. *)
Definition hallucinating_stocks : list value := [VStr "AAPL"; VStr "TSLA"].

Definition hallucinating_fields : dict :=
  [ ("stocks_need_fundamental", VList hallucinating_stocks);
    ("reasoning",
     VDict [("AAPL", VStr "earnings due"); ("TSLA", VStr "made up")]) ].

Definition hallucinating_answer : value := VDict hallucinating_fields.

(** The fields of a prior decision as line 64-68 read them. *)
Definition recorded_action (decision : dict) : value :=
  dict_get_default decision "action" (VStr "hold").

Definition recorded_cash_change (decision : dict) : value :=
  dict_get_default decision "cash_change" (VNum 0).

Definition recorded_target (decision : dict) : value :=
  dict_get_default decision "target_cash_amount" (VNum 0).

(** A hold whose recorded amount and cash change are both zero. *)
Definition zero_hold (decision : dict) : bool :=
  py_eq_str (recorded_action decision) "hold"
  && py_eq_num (recorded_target decision) 0
  && py_eq_num (recorded_cash_change decision) 0.




(** Yesterday's decisions: a placeholder hold on AAA and a purchase of BBB. *)
Definition placeholder_hold : dict :=
  [ ("action", VStr "hold"); ("cash_change", VNum 0);
    ("target_cash_amount", VNum 0) ].

Definition purchase : dict :=
  [ ("action", VStr "buy"); ("cash_change", VNum (-500));
    ("target_cash_amount", VNum 500) ].

Definition yesterday : dict :=
  [ ("__meta__", VDict [("date", VStr "2024-03-14")]);
    ("AAA", VDict placeholder_hold);
    ("BBB", VDict purchase) ].

(** Today AAA is worth 1500. *)
Definition features_with_position : value :=
  VDict [("AAA", VDict [position 1500])].

(** Today the value of AAA is missing. *)
Definition features_with_null_position : value :=
  VDict [("AAA", VDict [("position_state",
                         VDict [("current_position_value", VNone)])])].

(** The feature snapshot of a candidate as a dict. *)
Definition features_dict (it : item) : dict :=
  match features_of it with
  | VDict f => f
  | _ => []
  end.

(** A snapshot without its ["fundamental_data"] section. *)
Definition without_fundamentals (features : dict) : dict :=
  filter (fun kv => negb (String.eqb (fst kv) "fundamental_data")) features.

(** [position_state.current_position_value] of a candidate, 0 when absent. *)
Definition position_value (it : item) : Q :=
  match dict_get_default (features_dict it) "position_state" (VDict []) with
  | VDict position_state =>
      match num_of (dict_get_default position_state "current_position_value"
                      (VNum 0)) with
      | Some q => q
      | None => 0
      end
  | _ => 0
  end.

(** The position values of all candidates, added up in list order. *)
Definition aggregate_position_value (features_list : list item) : Q :=
  fold_left Qplus (map position_value features_list) 0.

(** [ctx] is a mapping that has a portfolio. *)
Definition has_portfolio (ctx : value) : bool :=
  match ctx with
  | VDict c => dict_has c "portfolio"
  | _ => false
  end.

(** The cash of the portfolio in [ctx]. *)
Definition live_cash (E : externals) (ctx : value) : option Q :=
  match ctx with
  | VDict c =>
      match dict_get c "portfolio" with
      | Some (VObj attrs) =>
          match dict_get attrs "cash" with
          | Some cash =>
              match py_float E cash with
              | Ok q => Some q
              | Raise _ => None
              end
          | None => None
          end
      | _ => None
      end
  | _ => None
  end.

(** [portfolio.total_cash] of the configuration, 100000 when absent. *)
Definition configured_total_cash (cfg : value) : value :=
  match cfg with
  | VDict c =>
      match dict_get_default c "portfolio" (VDict []) with
      | VDict portfolio_cfg => dict_get_default portfolio_cfg "total_cash" (VNum 100000)
      | _ => VNum 100000
      end
  | _ => VNum 100000
  end.

(** [payload["portfolio_info"][field]] *)
Definition portfolio_info (payload : value) (field : string) : option value :=
  match payload with
  | VDict d =>
      match dict_get d "portfolio_info" with
      | Some (VDict info) => dict_get info field
      | _ => None
      end
  | _ => None
  end.

(** [payload["symbols"][symbol]["features"]] *)
Definition payload_features (payload : value) (symbol : string) : option dict :=
  match payload with
  | VDict d =>
      match dict_get d "symbols" with
      | Some (VDict symbols) =>
          match dict_get symbols symbol with
          | Some (VDict entry) =>
              match dict_get entry "features" with
              | Some (VDict features) => Some features
              | _ => None
              end
          | _ => None
          end
      | _ => None
      end
  | _ => None
  end.

(** The entry the loop of lines 194-211 writes for a candidate. *)
Definition symbol_entry (it : item) : value :=
  VDict [("features", VDict (without_fundamentals (features_dict it)))].


(** A portfolio object holding 50000 in cash. *)
Definition live_ctx : value :=
  VDict [("portfolio", VObj [("cash", VNum 50000)])].

(** The same symbol twice, with two closing prices. *)
Definition repeated_candidates : list item :=
  [ candidate "AAPL" [("market_data", VDict [("close", VNum 189)])];
    candidate "AAPL" [("market_data", VDict [("close", VNum 191)])] ].

(** The [market_data] section of a candidate, when it is a mapping. *)
Definition market_data_of (it : item) : option dict :=
  match features_of it with
  | VDict f =>
      match dict_get_default f "market_data" (VDict []) with
      | VDict market_data => Some market_data
      | _ => None
      end
  | _ => None
  end.

(** The [date] field of the market data of a candidate. *)
Definition date_field (it : item) : option value :=
  match market_data_of it with
  | Some market_data => dict_get market_data "date"
  | None => None
  end.

(** A candidate whose market data has no [date] field and no [timestamp]
    field that is a string. *)
Definition undated (it : item) : bool :=
  match market_data_of it with
  | Some market_data =>
      negb (dict_has market_data "date")
      && match dict_get market_data "timestamp" with
         | Some (VStr _) => false
         | _ => true
         end
  | None => false
  end.

(** The date [ctx] gives: a date-like object formatted, a string as it is. *)
Definition ctx_date_of (ctx : value) : option string :=
  match ctx with
  | VDict c =>
      match dict_get c "date" with
      | Some (VDate iso) => if String.eqb iso "" then None else Some iso
      | Some (VStr s) => if String.eqb s "" then None else Some s
      | _ => None
      end
  | _ => None
  end.

(** A candidate that carries a timestamp and no date. *)
Definition stamped_candidate : item :=
  candidate "AAPL"
    [("market_data", VDict [("timestamp", VStr "2024-03-15T09:30:00Z")])].

(** A candidate that carries a date. *)
Definition dated_candidate : item :=
  candidate "MSFT" [("market_data", VDict [("date", VStr "2024-03-15")])].

Definition dated_ctx : value := VDict [("date", VStr "2024-03-15")].

(** There is no llm sub-configuration: [cfg] is [None] (or false in
    another way), or a mapping in which ["llm"] is absent or empty. *)
Definition no_llm_section (cfg : value) : bool :=
  match py_or cfg (VDict []) with
  | VDict c => negb (truthy (dict_get_default c "llm" (VDict [])))
  | _ => false
  end.

Definition is_number (v : value) : bool :=
  match num_of v with Some _ => true | None => false end.

Definition is_mapping (v : value) : bool :=
  match v with VDict _ => true | _ => false end.

(** The section [d.get(k, {})] when it is a mapping. *)
Definition section (d : dict) (k : string) : dict :=
  match dict_get_default d k (VDict []) with
  | VDict s => s
  | _ => []
  end.

(** The section is absent or a mapping. *)
Definition section_ok (d : dict) (k : string) : bool :=
  is_mapping (dict_get_default d k (VDict [])).

(** The setting is absent or a number. *)
Definition number_ok (d : dict) (k : string) : bool :=
  match dict_get d k with
  | None => true
  | Some v => is_number v
  end.

(** A number that a [float] can hold. *)
Definition is_float_number (v : value) : bool :=
  match num_of v with
  | Some q => negb (beyond_float q)
  | None => false
  end.

(** The setting is absent or a number within the range of a [float]. *)
Definition float_ok (d : dict) (k : string) : bool :=
  match dict_get d k with
  | None => true
  | Some v => is_float_number v
  end.



(** A candidate with the shape of the input contract: its snapshot is a
    mapping of JSON data whose position state, when present, is a mapping
    with a numeric value within the range of a [float]. *)
Definition item_shaped (it : item) : bool :=
  match features_of it with
  | VDict f =>
      json_serializable (VDict f)
      && section_ok f "position_state"
      && float_ok (section f "position_state") "current_position_value"
  | _ => false
  end.







(** ** Dictionaries *)

Local Open Scope list_scope.

Lemma dict_get_set_same (k : string) (v : value) (d : dict) :
  dict_get (dict_set k v d) k = Some v.
Proof.
  induction d as [| [k' v'] rest IH]; simpl.
  - now rewrite String.eqb_refl.
  - destruct (String.eqb k k') eqn:Hk; simpl.
    + now rewrite String.eqb_refl.
    + now rewrite Hk.
Qed.

Lemma dict_get_set_other (k k' : string) (v : value) (d : dict) :
  k' <> k -> dict_get (dict_set k v d) k' = dict_get d k'.
Proof.
  intros Hne.
  assert (Hf : String.eqb k' k = false) by now apply String.eqb_neq.
  induction d as [| [k0 v0] rest IH]; simpl.
  - now rewrite Hf.
  - destruct (String.eqb k k0) eqn:Hk; simpl.
    + apply String.eqb_eq in Hk. subst k0. now rewrite Hf.
    + now rewrite IH.
Qed.

Lemma dict_set_keys (k : string) (v : value) (d : dict) :
  map fst (dict_set k v d)
  = if dict_has d k then map fst d else (map fst d ++ [k])%list.
Proof.
  unfold dict_has.
  induction d as [| [k' v'] rest IH]; simpl; [reflexivity |].
  destruct (String.eqb k k') eqn:Hk; simpl.
  - apply String.eqb_eq in Hk. now subst.
  - rewrite IH. now destruct (dict_get rest k).
Qed.

Lemma dict_get_none_keys (d : dict) (k : string) :
  dict_get d k = None <-> ~ In k (map fst d).
Proof.
  induction d as [| [k' v'] rest IH]; simpl.
  - tauto.
  - destruct (String.eqb k k') eqn:Hk.
    + apply String.eqb_eq in Hk. subst. split; [discriminate | tauto].
    + apply String.eqb_neq in Hk. rewrite IH. split.
      * intros Hn [He | Hi]; [now symmetry in He | tauto].
      * tauto.
Qed.

Lemma dict_set_wf (k : string) (v : value) (d : dict) :
  dict_wf d -> dict_wf (dict_set k v d).
Proof.
  unfold dict_wf. intros Hwf. rewrite dict_set_keys.
  unfold dict_has. destruct (dict_get d k) eqn:Hg; [assumption |].
  apply dict_get_none_keys in Hg.
  apply NoDup_app; [assumption | repeat constructor; simpl; tauto |].
  intros x Hx [Hk | []]. now subst.
Qed.

(** ** The conservative result *)

Lemma reasoning_fold_notin (text : string -> string) (l : list string)
    (d : dict) (s : string) :
  ~ In s l ->
  dict_get (fold_left (fun d symbol => dict_set symbol (VStr (text symbol)) d) l d) s
  = dict_get d s.
Proof.
  revert d. induction l as [| a l IH]; intros d Hn; simpl; [reflexivity |].
  rewrite IH by (intros H; apply Hn; now right).
  apply dict_get_set_other. intros ->. apply Hn. now left.
Qed.

Lemma reasoning_fold_in (text : string -> string) (l : list string) (d : dict)
    (s : string) :
  In s l ->
  dict_get (fold_left (fun d symbol => dict_set symbol (VStr (text symbol)) d) l d) s
  = Some (VStr (text s)).
Proof.
  revert d. induction l as [| a l IH]; intros d Hin; [destruct Hin |].
  simpl. destruct (in_dec string_dec s l) as [Hl | Hl].
  - now apply IH.
  - destruct Hin as [-> | Hin]; [| contradiction].
    rewrite reasoning_fold_notin by assumption.
    apply dict_get_set_same.
Qed.

Lemma reasoning_for_get (text : string -> string) (l : list string) (s : string) :
  In s l -> dict_get (reasoning_for text l) s = Some (VStr (text s)).
Proof. apply reasoning_fold_in. Qed.

Lemma llm_disabled_text_nonempty (s : string) : llm_disabled_text s <> "".
Proof. unfold llm_disabled_text. simpl. discriminate. Qed.

Lemma error_text_nonempty (msg s : string) : error_text msg s <> "".
Proof. unfold error_text. simpl. discriminate. Qed.

(** ** Reaching the call *)

Ltac step H name :=
  match type of H with
  | bind ?m _ = Ok _ =>
      let Hm := fresh "H" name in
      destruct m as [name |] eqn:Hm; simpl in H; [| discriminate H]
  end.

(** What [prepare] has computed when it succeeds. *)
Lemma prepare_inv (E : externals) (features_list : list item)
    (cfg run_id ctx previous_decisions decision_history : value) (p : prepared) :
  prepare E features_list cfg run_id ctx previous_decisions decision_history = Ok p ->
  exists llm_cfg_raw llm_cfg system_prompt symbols total total_assets
         available_cash hist payload,
    py_get (py_or cfg (VDict [])) "llm" (VDict []) = Ok llm_cfg_raw /\
    truthy llm_cfg_raw = true /\
    build_llm_config E cfg llm_cfg_raw = Ok llm_cfg /\
    load_system_prompt E cfg = Ok system_prompt /\
    symbols_loop features_list [] 0 = Ok (symbols, total) /\
    portfolio_snapshot E cfg ctx total = Ok (total_assets, available_cash) /\
    history_of features_list previous_decisions decision_history = Ok hist /\
    json_dumps (round_numbers_in_obj (round_number E)
                  (filter_input_of total_assets available_cash total symbols hist))
      = Ok payload /\
    filter_input p = filter_input_of total_assets available_cash total symbols hist /\
    history p = hist /\
    req_payload (the_request p) = payload /\
    req_trade_date (the_request p) = resolve_trade_date E features_list ctx.
Proof.
  unfold prepare. intros H.
  step H llm_cfg_raw.
  destruct (truthy llm_cfg_raw) eqn:Hllm; simpl in H; [| discriminate H].
  step H llm_cfg. step H accepted. step H system_prompt. step H filled.
  destruct filled as [symbols total].
  step H snapshot. destruct snapshot as [total_assets available_cash].
  step H hist. step H rounded. step H payload. step H client.
  injection H as <-. simpl.
  exists llm_cfg_raw, llm_cfg, system_prompt, symbols, total, total_assets,
    available_cash, hist, payload.
  repeat split; assumption || reflexivity.
Qed.

Lemma history_of_len (features_list : list item)
    (previous_decisions decision_history hist : value) :
  history_of features_list previous_decisions decision_history = Ok hist ->
  exists n, py_len hist = Ok n.
Proof.
  unfold history_of. destruct (truthy decision_history).
  - intros H. step H n. injection H as <-. now exists n.
  - intros H. injection H as <-. simpl. eauto.
Qed.

Lemma prepare_history_len (E : externals) (features_list : list item)
    (cfg run_id ctx previous_decisions decision_history : value) (p : prepared) :
  prepare E features_list cfg run_id ctx previous_decisions decision_history = Ok p ->
  exists n, py_len (history p) = Ok n.
Proof.
  intros H. apply prepare_inv in H.
  destruct H as (? & ? & ? & ? & ? & ? & ? & hist & ? & _ & _ & _ & _ & _ & _ & Hh & _ & _ & Hp & _).
  rewrite Hp. eapply history_of_len, Hh.
Qed.

(** ** The conservative result, candidate by candidate *)

Lemma goes_by_symbol_of (it : item) : goes_by it (symbol_of it).
Proof.
  unfold symbol_of. destruct (item_symbol it) as [s |] eqn:Hs.
  - now apply goes_by_symbol.
  - now apply goes_by_unknown.
Qed.

Lemma goes_by_inv (it : item) (s : string) : goes_by it s -> s = symbol_of it.
Proof.
  unfold symbol_of. intros [s' Hs | Hs]; now rewrite Hs.
Qed.

Lemma stands_for_inv (features_list : list item) (l : list value) :
  Forall2 stands_for features_list l -> l = map VStr (symbols_of features_list).
Proof.
  induction 1 as [| it v rest l (s & Hs & ->) _ IH]; [reflexivity |].
  simpl. now rewrite (goes_by_inv it s Hs), IH.
Qed.

Lemma reasoning_for_keys (text : string -> string) (l : list string)
    (k : string) (v : value) :
  dict_get (reasoning_for text l) k = Some v -> In k l.
Proof.
  intros H. destruct (in_dec string_dec k l) as [Hin | Hout]; [exact Hin |].
  unfold reasoning_for in H. rewrite reasoning_fold_notin in H by assumption.
  discriminate H.
Qed.

(** What [require_all] returns, told by the candidates themselves. *)
Lemma require_all_named (features_list : list item) (text : string -> string) :
  Forall2 stands_for features_list
    (stocks_need_fundamental (require_all features_list text)) /\
  (forall it s, In it features_list -> goes_by it s ->
     dict_get (reasoning (require_all features_list text)) s
     = Some (VStr (text s))) /\
  (forall k v, dict_get (reasoning (require_all features_list text)) k = Some v ->
     exists it, In it features_list /\ goes_by it k).
Proof.
  split; [| split].
  - simpl. unfold symbols_of.
    induction features_list as [| it rest IH]; simpl; constructor;
      [| exact IH].
    exists (symbol_of it). split; [apply goes_by_symbol_of | reflexivity].
  - intros it s Hin Hs. simpl. apply reasoning_for_get.
    rewrite (goes_by_inv it s Hs). unfold symbols_of. now apply in_map.
  - intros k v Hk. simpl in Hk. apply reasoning_for_keys in Hk.
    unfold symbols_of in Hk. apply in_map_iff in Hk.
    destruct Hk as (it & <- & Hin). exists it. split; [exact Hin |].
    apply goes_by_symbol_of.
Qed.

(** ** C3: the classification switched off *)

(** C3.  With [enable_llm = False] the function makes no call to the
    classification service and returns: the required list names the
    candidates one by one in input order, each by the symbol it carries
    (["UNKNOWN"] when it carries none), and the reasoning holds for every
    one of them the non-empty text of line 135 with its symbol in it. *)
Theorem llm_disabled_requires_all (E : externals) (features_list : list item)
    (cfg : value) (enable_llm : bool)
    (run_id ctx previous_decisions decision_history : value) :
  enable_llm = false ->
  let out :=
    filter_stocks_needing_fundamental E features_list cfg enable_llm run_id ctx
      previous_decisions decision_history in
  fst out = [] /\
  exists r,
    snd out = Ok r /\
    Forall2 stands_for features_list (stocks_need_fundamental r) /\
    forall it s, In it features_list -> goes_by it s ->
      exists text,
        dict_get (reasoning r) s = Some (VStr text) /\
        text = ("LLM not enabled, requiring fundamental analysis for " ++ s
                ++ " as conservative fallback")%string /\
        text <> ""%string.
Proof.
  intros ->. simpl. split; [reflexivity |].
  destruct (require_all_named features_list llm_disabled_text)
    as (Hlist & Hreason & _).
  eexists. split; [reflexivity |]. split; [exact Hlist |].
  intros it s Hin Hs. exists (llm_disabled_text s).
  split; [exact (Hreason it s Hin Hs) |]. split; [reflexivity |].
  apply llm_disabled_text_nonempty.
Qed.

(** Witness of C3: two candidates with a symbol and one without, the
    classification switched off, no configuration at all. *)
Lemma llm_disabled_requires_all_witness :
  exists r,
    filter_stocks_needing_fundamental (world refusing_service) mixed_candidates
      VNone false VNone VNone VNone VNone = ([], Ok r) /\
    stocks_need_fundamental r = [VStr "AAPL"; VStr "UNKNOWN"; VStr "MSFT"] /\
    dict_get (reasoning r) "AAPL"
    = Some (VStr "LLM not enabled, requiring fundamental analysis for AAPL as conservative fallback") /\
    dict_get (reasoning r) "UNKNOWN"
    = Some (VStr "LLM not enabled, requiring fundamental analysis for UNKNOWN as conservative fallback").
Proof.
  destruct (llm_disabled_requires_all (world refusing_service) mixed_candidates
              VNone false VNone VNone VNone VNone eq_refl)
    as (Hcalls & r & Hr & Hlist & Hreason).
  exists r. split; [| split; [| split]].
  - rewrite (surjective_pairing
               (filter_stocks_needing_fundamental (world refusing_service)
                  mixed_candidates VNone false VNone VNone VNone VNone)).
    now rewrite Hcalls, Hr.
  - exact (stands_for_inv mixed_candidates _ Hlist).
  - destruct (Hreason (candidate "AAPL" [position 12000]) "AAPL"%string)
      as (text & Hget & -> & _);
      [now left | now apply goes_by_symbol | exact Hget].
  - destruct (Hreason anonymous_candidate "UNKNOWN"%string)
      as (text & Hget & -> & _);
      [right; now left | now apply goes_by_unknown | exact Hget].
Defined.

(** ** C1: the failure cases of the call *)

(** C1.  When the call is reached and it raises, or returns something that
    is not a non-empty mapping, or returns a mapping whose
    [stocks_need_fundamental] is not a list, the function returns: the
    required list names the candidates one by one in input order, each by
    the symbol it carries (["UNKNOWN"] when it carries none); the reasoning
    has an entry for the symbols of the candidates and for nothing else,
    and gives each the same non-empty text.  The text tells the cause:
    the first 50 characters of the exception when the call raised, the
    message of line 319 when what was returned is not a non-empty mapping,
    the message of line 333 when the field is not a list, and the text of
    an exception again when the metadata cannot be read at line 309. *)
Theorem failed_call_requires_all (E : externals) (features_list : list item)
    (cfg run_id ctx previous_decisions decision_history : value) (p : prepared) :
  prepare E features_list cfg run_id ctx previous_decisions decision_history = Ok p ->
  failure_case (generate_json E (the_request p)) = true ->
  let out :=
    filter_stocks_needing_fundamental E features_list cfg true run_id ctx
      previous_decisions decision_history in
  fst out = [the_request p] /\
  exists r text,
    snd out = Ok r /\
    Forall2 stands_for features_list (stocks_need_fundamental r) /\
    (forall it s, In it features_list -> goes_by it s ->
       dict_get (reasoning r) s = Some (VStr text)) /\
    (forall k v, dict_get (reasoning r) k = Some v ->
       exists it, In it features_list /\ goes_by it k) /\
    text <> ""%string /\
    (forall msg, generate_json E (the_request p) = Raised msg ->
       text = ("Error during filtering (" ++ String.substring 0 50 msg
               ++ "), requiring fundamental analysis as fallback")%string) /\
    (forall data meta,
       generate_json E (the_request p) = Returned data meta ->
       if is_mapping meta then
         text = if nonempty_mapping data
                then "Invalid filter result format, requiring fundamental analysis as fallback"%string
                else "LLM returned invalid format, requiring fundamental analysis as fallback"%string
       else
         exists msg,
           text = ("Error during filtering (" ++ String.substring 0 50 msg
                   ++ "), requiring fundamental analysis as fallback")%string).
Proof.
  intros Hp Hfail. unfold filter_stocks_needing_fundamental. simpl.
  rewrite Hp. simpl. split; [reflexivity |].
  set (raised := fun text : string =>
         forall msg, generate_json E (the_request p) = Raised msg ->
           text = ("Error during filtering (" ++ String.substring 0 50 msg
                   ++ "), requiring fundamental analysis as fallback")%string).
  set (returned := fun text : string =>
         forall data meta,
           generate_json E (the_request p) = Returned data meta ->
           if is_mapping meta then
             text = if nonempty_mapping data
                    then "Invalid filter result format, requiring fundamental analysis as fallback"%string
                    else "LLM returned invalid format, requiring fundamental analysis as fallback"%string
           else
             exists msg,
               text = ("Error during filtering (" ++ String.substring 0 50 msg
                       ++ "), requiring fundamental analysis as fallback")%string).
  assert (Hall : forall (message : string -> string) (text : string),
    (forall s, message s = text) -> text <> ""%string ->
    raised text -> returned text ->
    exists r text',
      Ok (require_all features_list message) = Ok r /\
      Forall2 stands_for features_list (stocks_need_fundamental r) /\
      (forall it s, In it features_list -> goes_by it s ->
         dict_get (reasoning r) s = Some (VStr text')) /\
      (forall k v, dict_get (reasoning r) k = Some v ->
         exists it, In it features_list /\ goes_by it k) /\
      text' <> ""%string /\ raised text' /\ returned text').
  { intros message text Hconst Hne Hraised Hreturned.
    destruct (require_all_named features_list message) as (H1 & H2 & H3).
    exists (require_all features_list message), text.
    repeat split; try assumption.
    intros it s Hin Hs. rewrite <- (Hconst s). exact (H2 it s Hin Hs). }
  unfold call_and_parse.
  destruct (generate_json E (the_request p)) as [data meta | msg] eqn:Hcall.
  - assert (Hunreadable : is_mapping meta = false ->
      forall e,
      exists r text',
        Ok (require_all features_list (error_text (str_exn E e))) = Ok r /\
        Forall2 stands_for features_list (stocks_need_fundamental r) /\
        (forall it s, In it features_list -> goes_by it s ->
           dict_get (reasoning r) s = Some (VStr text')) /\
        (forall k v, dict_get (reasoning r) k = Some v ->
           exists it, In it features_list /\ goes_by it k) /\
        text' <> ""%string /\ raised text' /\ returned text').
    { intros Hmeta e.
      apply (Hall _ (error_text (str_exn E e) ""%string)).
      - reflexivity.
      - apply error_text_nonempty.
      - intros msg Hm. discriminate Hm.
      - intros data' meta' Hr. injection Hr as <- <-. rewrite Hmeta.
        eexists. reflexivity. }
    assert (Hreadable : is_mapping meta = true ->
      forall (message : string -> string) (text : string),
      (forall s, message s = text) -> text <> ""%string ->
      text = (if nonempty_mapping data
              then "Invalid filter result format, requiring fundamental analysis as fallback"%string
              else "LLM returned invalid format, requiring fundamental analysis as fallback"%string) ->
      exists r text',
        Ok (require_all features_list message) = Ok r /\
        Forall2 stands_for features_list (stocks_need_fundamental r) /\
        (forall it s, In it features_list -> goes_by it s ->
           dict_get (reasoning r) s = Some (VStr text')) /\
        (forall k v, dict_get (reasoning r) k = Some v ->
           exists it, In it features_list /\ goes_by it k) /\
        text' <> ""%string /\ raised text' /\ returned text').
    { intros Hmeta message text Hconst Hne Htext.
      apply (Hall message text); try assumption.
      - intros msg Hm. discriminate Hm.
      - intros data' meta' Hr. injection Hr as <- <-. rewrite Hmeta.
        exact Htext. }
    unfold parse_response.
    destruct meta as [| | | | | md | |];
      try (apply Hunreadable; reflexivity).
    cbn [py_get bind].
    destruct data as [| | | | | dd | |];
      try (apply (Hreadable eq_refl invalid_format_text
                    (invalid_format_text ""%string));
           [reflexivity | discriminate | reflexivity]).
    destruct dd as [| kv dd];
      [apply (Hreadable eq_refl invalid_format_text
                (invalid_format_text ""%string));
       [reflexivity | discriminate | reflexivity] |].
    unfold failure_case in Hfail. unfold dict_get_default. cbv beta iota.
    destruct (dict_get (kv :: dd) "stocks_need_fundamental") as [stocks |] eqn:Hs;
      [| discriminate Hfail].
    destruct stocks;
      try (apply (Hreadable eq_refl invalid_result_text
                    (invalid_result_text ""%string));
           [reflexivity | discriminate | reflexivity]).
    discriminate Hfail.
  - apply (Hall _ (error_text msg ""%string)).
    + reflexivity.
    + apply error_text_nonempty.
    + intros msg' Hm. injection Hm as <-. reflexivity.
    + intros data meta Hr. discriminate Hr.
Qed.

(** Witness of C1: three candidates, a minimal configuration, and a service
    that refuses the connection. *)
Lemma failed_call_requires_all_witness :
  exists p,
    prepare (world refusing_service) three_candidates minimal_cfg
      VNone VNone VNone VNone = Ok p /\
    failure_case (generate_json (world refusing_service) (the_request p)) = true /\
    exists r,
      filter_stocks_needing_fundamental (world refusing_service)
        three_candidates minimal_cfg true VNone VNone VNone VNone
      = ([the_request p], Ok r) /\
      stocks_need_fundamental r = [VStr "AAPL"; VStr "MSFT"; VStr "GOOGL"] /\
      dict_get (reasoning r) "AAPL"
      = Some (VStr "Error during filtering (connection refused), requiring fundamental analysis as fallback") /\
      dict_get (reasoning r) "GOOGL"
      = Some (VStr "Error during filtering (connection refused), requiring fundamental analysis as fallback") /\
      dict_get (reasoning r) "TSLA" = None.
Proof.
  destruct (prepare (world refusing_service) three_candidates minimal_cfg
              VNone VNone VNone VNone) as [p | e] eqn:Hp;
    [| vm_compute in Hp; discriminate Hp].
  exists p. split; [reflexivity |].
  assert (Hf : failure_case (generate_json (world refusing_service) (the_request p))
               = true) by reflexivity.
  split; [exact Hf |].
  destruct (failed_call_requires_all (world refusing_service) three_candidates
              minimal_cfg VNone VNone VNone VNone p Hp Hf)
    as (Hcalls & r & text & Hr & Hlist & Hreason & Honly & _ & Hraised & _).
  assert (Htext : text = "Error during filtering (connection refused), requiring fundamental analysis as fallback"%string)
    by exact (Hraised "connection refused"%string eq_refl).
  exists r. split; [| split; [| split; [| split]]].
  - rewrite (surjective_pairing
               (filter_stocks_needing_fundamental (world refusing_service)
                  three_candidates minimal_cfg true VNone VNone VNone VNone)).
    now rewrite Hcalls, Hr.
  - exact (stands_for_inv three_candidates _ Hlist).
  - rewrite <- Htext. eapply Hreason.
    + left. reflexivity.
    + now apply goes_by_symbol.
  - rewrite <- Htext. eapply Hreason.
    + right. right. left. reflexivity.
    + now apply goes_by_symbol.
  - destruct (dict_get (reasoning r) "TSLA") as [v |] eqn:Hv; [| reflexivity].
    destruct (Honly "TSLA"%string v Hv) as (it & Hin & Hgo).
    apply goes_by_inv in Hgo.
    destruct Hin as [<- | [<- | [<- | []]]]; discriminate Hgo.
Defined.

(** ** C2 and C10: the well-formed response *)

Lemma fill_one_get (stocks : list value) (r : dict) (s k : string) :
  dict_get (fill_one stocks r s) k
  = if String.eqb k s
    then Some (match dict_get r s with
               | Some v => v
               | None => default_reasoning stocks s
               end)
    else dict_get r k.
Proof.
  unfold fill_one, dict_has, default_reasoning, mentions.
  destruct (String.eqb k s) eqn:Hk.
  - apply String.eqb_eq in Hk. subst k.
    destruct (dict_get r s) eqn:Hg; [assumption |].
    destruct (existsb _ stocks); apply dict_get_set_same.
  - apply String.eqb_neq in Hk.
    destruct (dict_get r s); [reflexivity |].
    destruct (existsb _ stocks); now apply dict_get_set_other.
Qed.

Lemma fill_one_wf (stocks : list value) (r : dict) (s : string) :
  dict_wf r -> dict_wf (fill_one stocks r s).
Proof.
  intros Hwf. unfold fill_one.
  destruct (dict_has r s); [assumption |].
  destruct (existsb _ stocks); now apply dict_set_wf.
Qed.

Lemma fill_reasoning_wf (order : list string) (stocks : list value) (r : dict) :
  dict_wf r -> dict_wf (fill_reasoning order stocks r).
Proof.
  unfold fill_reasoning. revert r.
  induction order as [| a order IH]; intros r Hwf; simpl; [assumption |].
  apply IH. now apply fill_one_wf.
Qed.

(** Symbols that are not walked keep what the response said about them. *)
Lemma fill_reasoning_get_notin (order : list string) (stocks : list value)
    (r : dict) (k : string) :
  ~ In k order -> dict_get (fill_reasoning order stocks r) k = dict_get r k.
Proof.
  unfold fill_reasoning. revert r.
  induction order as [| a order IH]; intros r Hn; simpl; [reflexivity |].
  rewrite IH by (intros H; apply Hn; now right).
  rewrite fill_one_get.
  destruct (String.eqb k a) eqn:Hk; [| reflexivity].
  apply String.eqb_eq in Hk. exfalso. apply Hn. now left.
Qed.

(** Symbols that are walked keep what the response said, or get the
    default. *)
Lemma fill_reasoning_get_in (order : list string) (stocks : list value)
    (r : dict) (s : string) :
  In s order ->
  dict_get (fill_reasoning order stocks r) s
  = Some (match dict_get r s with
          | Some v => v
          | None => default_reasoning stocks s
          end).
Proof.
  revert r. induction order as [| a order IH]; intros r Hin; [destruct Hin |].
  destruct (in_dec string_dec s order) as [Hl | Hl].
  - change (fill_reasoning (a :: order) stocks r)
      with (fill_reasoning order stocks (fill_one stocks r a)).
    rewrite IH by assumption. rewrite fill_one_get.
    destruct (String.eqb s a) eqn:Hk; [| reflexivity].
    apply String.eqb_eq in Hk. subst a. now destruct (dict_get r s).
  - destruct Hin as [-> | Hin]; [| contradiction].
    change (fill_reasoning (s :: order) stocks r)
      with (fill_reasoning order stocks (fill_one stocks r s)).
    rewrite fill_reasoning_get_notin by assumption.
    rewrite fill_one_get. now rewrite String.eqb_refl.
Qed.

Lemma drop_hallucinated_hashable (input_symbols : list string)
    (stocks : list value) :
  forallb hashable stocks = true ->
  drop_hallucinated input_symbols stocks
  = Ok (filter (is_input_symbol input_symbols) stocks).
Proof.
  induction stocks as [| v stocks IH]; intros Hh; [reflexivity |].
  simpl in Hh. apply andb_true_iff in Hh. destruct Hh as [Hv Hrest].
  simpl. unfold in_input_symbols. rewrite Hv. simpl.
  rewrite IH by assumption. simpl.
  unfold is_input_symbol at 2.
  destruct v; try reflexivity.
Qed.

Lemma drop_hallucinated_unhashable (input_symbols : list string)
    (stocks : list value) :
  forallb hashable stocks = false ->
  exists what, drop_hallucinated input_symbols stocks = Raise (TypeError what).
Proof.
  induction stocks as [| v stocks IH]; intros Hh; [discriminate Hh |].
  simpl in Hh. simpl. unfold in_input_symbols.
  destruct (hashable v) eqn:Hv; simpl in *.
  - destruct (IH Hh) as [what Hw]. rewrite Hw. simpl. eauto.
  - eauto.
Qed.

(** The result on the path that reaches line 361. *)
Lemma wellformed_response_result (E : externals) (features_list : list item)
    (cfg run_id ctx previous_decisions decision_history : value) (p : prepared)
    (d meta : dict) (stocks : list value) :
  prepare E features_list cfg run_id ctx previous_decisions decision_history = Ok p ->
  generate_json E (the_request p) = Returned (VDict d) (VDict meta) ->
  d <> [] ->
  dict_get_default d "stocks_need_fundamental" (VList []) = VList stocks ->
  forallb hashable stocks = true ->
  filter_stocks_needing_fundamental E features_list cfg true run_id ctx
    previous_decisions decision_history
  = ([the_request p],
     Ok {| stocks_need_fundamental :=
             filter (is_input_symbol (symbols_of features_list)) stocks;
           reasoning :=
             fill_reasoning (set_iteration E (symbols_of features_list)) stocks
               (supplied_reasoning d) |}).
Proof.
  intros Hp Hcall Hd Hstocks Hhash.
  unfold filter_stocks_needing_fundamental. simpl. rewrite Hp.
  unfold call_and_parse. rewrite Hcall.
  unfold parse_response. simpl.
  destruct d as [| kv d]; [contradiction |].
  rewrite Hstocks.
  rewrite drop_hallucinated_hashable by assumption. simpl.
  destruct (prepare_history_len _ _ _ _ _ _ _ _ Hp) as [n Hn].
  rewrite Hn. reflexivity.
Qed.

(** C2, as the code has it.  When the call is reached and returns a
    non-empty mapping whose [stocks_need_fundamental] is absent or a list,
    next to a metadata mapping, then
    - if the elements of the list are hashable (no list, no mapping among
      them) the function returns: the required list is the sub-list of the
      returned list made of the input symbols, in the order of the returned
      list; the reasoning map has distinct keys, gives every input symbol
      what the response said about it or else the default text for its
      inclusion or exclusion, and gives a symbol outside the input exactly
      what the response said about it, nothing when it said nothing;
    - if not, the set lookup of line 351 raises and the function requires
      all input symbols, with the text of the error as reasoning. *)
Theorem wellformed_response_sanitized (E : externals) (features_list : list item)
    (cfg run_id ctx previous_decisions decision_history : value) (p : prepared)
    (d meta : dict) (stocks : list value) :
  prepare E features_list cfg run_id ctx previous_decisions decision_history = Ok p ->
  generate_json E (the_request p) = Returned (VDict d) (VDict meta) ->
  d <> [] ->
  dict_get_default d "stocks_need_fundamental" (VList []) = VList stocks ->
  dict_wf (supplied_reasoning d) ->
  (forallb hashable stocks = true ->
   exists r,
     snd (filter_stocks_needing_fundamental E features_list cfg true run_id ctx
            previous_decisions decision_history) = Ok r /\
     stocks_need_fundamental r
       = filter (is_input_symbol (symbols_of features_list)) stocks /\
     dict_wf (reasoning r) /\
     (forall s, In s (symbols_of features_list) ->
        dict_get (reasoning r) s
        = Some (match dict_get (supplied_reasoning d) s with
                | Some v => v
                | None => default_reasoning stocks s
                end)) /\
     (forall k, ~ In k (symbols_of features_list) ->
        dict_get (reasoning r) k = dict_get (supplied_reasoning d) k)) /\
  (forallb hashable stocks = false ->
   exists what,
     snd (filter_stocks_needing_fundamental E features_list cfg true run_id ctx
            previous_decisions decision_history)
     = Ok (require_all features_list
             (error_text (str_exn E (TypeError what))))).
Proof.
  intros Hp Hcall Hd Hstocks Hwf. split; intros Hhash.
  - rewrite (wellformed_response_result E features_list cfg run_id ctx
               previous_decisions decision_history p d meta stocks)
      by assumption.
    eexists. split; [reflexivity |]. simpl.
    split; [reflexivity |]. split; [| split].
    + now apply fill_reasoning_wf.
    + intros s Hs. apply fill_reasoning_get_in.
      exact (proj2 (iterate_in (set_iteration E) _ s) Hs).
    + intros k Hk. apply fill_reasoning_get_notin.
      intros H. apply Hk. exact (proj1 (iterate_in (set_iteration E) _ k) H).
  - destruct (drop_hallucinated_unhashable (symbols_of features_list) stocks
                Hhash) as [what Hw].
    exists what. unfold filter_stocks_needing_fundamental. simpl. rewrite Hp.
    unfold call_and_parse. simpl. rewrite Hcall.
    unfold parse_response. simpl.
    destruct d as [| kv d]; [contradiction |].
    rewrite Hstocks, Hw. reflexivity.
Qed.

(** Witness of C2: the answer names AAPL and the unknown TSLA; AAPL is kept,
    TSLA is dropped, MSFT gets the default text. *)
Lemma wellformed_response_sanitized_witness :
  exists p,
    prepare (world (answering hallucinating_answer)) three_candidates minimal_cfg
      VNone VNone VNone VNone = Ok p /\
    generate_json (world (answering hallucinating_answer)) (the_request p)
      = Returned (VDict hallucinating_fields) (VDict ok_meta_fields) /\
    hallucinating_fields <> [] /\
    dict_get_default hallucinating_fields "stocks_need_fundamental" (VList [])
      = VList hallucinating_stocks /\
    forallb hashable hallucinating_stocks = true /\
    dict_wf (supplied_reasoning hallucinating_fields) /\
    exists r,
      snd (filter_stocks_needing_fundamental (world (answering hallucinating_answer))
             three_candidates minimal_cfg true VNone VNone VNone VNone) = Ok r /\
      stocks_need_fundamental r = [VStr "AAPL"] /\
      dict_get (reasoning r) "AAPL" = Some (VStr "earnings due") /\
      dict_get (reasoning r) "MSFT" = Some (VStr sufficient_text).
Proof.
  destruct (prepare (world (answering hallucinating_answer)) three_candidates
              minimal_cfg VNone VNone VNone VNone) as [p | e] eqn:Hp;
    [| vm_compute in Hp; discriminate Hp].
  assert (Hd : hallucinating_fields <> []) by discriminate.
  assert (Hwf : dict_wf (supplied_reasoning hallucinating_fields)).
  { unfold dict_wf. simpl. repeat constructor; simpl; intuition discriminate. }
  exists p. repeat (split; [reflexivity || assumption |]).
  destruct (wellformed_response_sanitized (world (answering hallucinating_answer))
              three_candidates minimal_cfg VNone VNone VNone VNone p
              hallucinating_fields ok_meta_fields hallucinating_stocks
              Hp eq_refl Hd eq_refl Hwf)
    as [Hclean _].
  destruct (Hclean eq_refl) as (r & Hr & Hs & _ & Hin & _).
  exists r. split; [exact Hr |]. split; [rewrite Hs; reflexivity |].
  split; (rewrite Hin; [reflexivity | simpl; tauto]).
Defined.

(** C2 as the claim states it fails: the answer is a mapping whose
    [stocks_need_fundamental] is a list, ["AAPL"] and a nested mapping.
    The input symbols among its elements are ["AAPL"] alone, yet the
    function requires all three candidates: the set lookup of the nested
    mapping raises and the [except] of line 366 takes over. *)
Lemma nested_answer_requires_all :
  dict_get_default nested_fields "stocks_need_fundamental" (VList [])
    = VList nested_stocks /\
  filter (is_input_symbol (symbols_of three_candidates)) nested_stocks
    = [VStr "AAPL"] /\
  exists req r,
    filter_stocks_needing_fundamental (world (answering nested_answer))
      three_candidates minimal_cfg true VNone VNone VNone VNone
      = ([req], Ok r) /\
    generate_json (world (answering nested_answer)) req
      = Returned (VDict nested_fields) ok_meta /\
    stocks_need_fundamental r = [VStr "AAPL"; VStr "MSFT"; VStr "GOOGL"] /\
    dict_get (reasoning r) "AAPL"
      = Some (VStr "Error during filtering (unhashable type: 'dict'), requiring fundamental analysis as fallback").
Proof.
  split; [reflexivity |]. split; [reflexivity |].
  eexists. eexists. split; [vm_compute; reflexivity |].
  repeat split.
Qed.

(** C10.  On the path that reaches line 361, what the response says about
    a symbol outside the input set stays in the returned reasoning map as
    it is. *)
Theorem foreign_reasoning_retained (E : externals) (features_list : list item)
    (cfg run_id ctx previous_decisions decision_history : value) (p : prepared)
    (d meta : dict) (stocks : list value) (k : string) (v : value) :
  prepare E features_list cfg run_id ctx previous_decisions decision_history = Ok p ->
  generate_json E (the_request p) = Returned (VDict d) (VDict meta) ->
  d <> [] ->
  dict_get_default d "stocks_need_fundamental" (VList []) = VList stocks ->
  forallb hashable stocks = true ->
  ~ In k (symbols_of features_list) ->
  dict_get (supplied_reasoning d) k = Some v ->
  exists r,
    snd (filter_stocks_needing_fundamental E features_list cfg true run_id ctx
           previous_decisions decision_history) = Ok r /\
    dict_get (reasoning r) k = Some v /\
    stocks_need_fundamental r
      = filter (is_input_symbol (symbols_of features_list)) stocks /\
    ~ In (VStr k) (stocks_need_fundamental r).
Proof.
  intros Hp Hcall Hd Hstocks Hhash Hk Hv.
  rewrite (wellformed_response_result E features_list cfg run_id ctx
             previous_decisions decision_history p d meta stocks) by assumption.
  eexists. split; [reflexivity |]. simpl. split; [| split].
  - rewrite fill_reasoning_get_notin; [assumption |].
    intros H. apply Hk. exact (proj1 (iterate_in (set_iteration E) _ k) H).
  - reflexivity.
  - intros Hin. apply filter_In in Hin. destruct Hin as [_ Hin].
    simpl in Hin. apply existsb_exists in Hin. destruct Hin as (x & Hx & He).
    apply String.eqb_eq in He. subst x. contradiction.
Qed.

(** Witness of C10: the answer reasons about TSLA, which is no candidate;
    the entry is in the result, so the keys of the result are more than the
    input symbols. *)
Lemma foreign_reasoning_retained_witness :
  exists p,
    prepare (world (answering hallucinating_answer)) three_candidates minimal_cfg
      VNone VNone VNone VNone = Ok p /\
    generate_json (world (answering hallucinating_answer)) (the_request p)
      = Returned (VDict hallucinating_fields) (VDict ok_meta_fields) /\
    hallucinating_fields <> [] /\
    dict_get_default hallucinating_fields "stocks_need_fundamental" (VList [])
      = VList hallucinating_stocks /\
    forallb hashable hallucinating_stocks = true /\
    ~ In "TSLA" (symbols_of three_candidates) /\
    dict_get (supplied_reasoning hallucinating_fields) "TSLA"
      = Some (VStr "made up") /\
    exists r,
      snd (filter_stocks_needing_fundamental (world (answering hallucinating_answer))
             three_candidates minimal_cfg true VNone VNone VNone VNone) = Ok r /\
      dict_get (reasoning r) "TSLA" = Some (VStr "made up") /\
      stocks_need_fundamental r
        = filter (is_input_symbol (symbols_of three_candidates))
            hallucinating_stocks /\
      ~ In (VStr "TSLA") (stocks_need_fundamental r).
Proof.
  destruct (prepare (world (answering hallucinating_answer)) three_candidates
              minimal_cfg VNone VNone VNone VNone) as [p | e] eqn:Hp;
    [| vm_compute in Hp; discriminate Hp].
  assert (Hd : hallucinating_fields <> []) by discriminate.
  assert (Hk : ~ In "TSLA" (symbols_of three_candidates)).
  { simpl. intuition discriminate. }
  exists p. repeat (split; [reflexivity || assumption |]).
  exact (foreign_reasoning_retained (world (answering hallucinating_answer))
           three_candidates minimal_cfg VNone VNone VNone VNone p
           hallucinating_fields ok_meta_fields hallucinating_stocks
           "TSLA" (VStr "made up") Hp eq_refl Hd eq_refl eq_refl Hk eq_refl).
Defined.

(** ** C4 and C5: the history of decisions *)

Lemma decisions_of_app (a b : dict) :
  decisions_of (a ++ b)%list = (decisions_of a ++ decisions_of b)%list.
Proof. apply filter_app. Qed.

Lemma decisions_of_get (items : dict) (s : string) :
  s <> "__meta__" -> dict_get (decisions_of items) s = dict_get items s.
Proof.
  intros Hs. induction items as [| [k v] rest IH]; [reflexivity |].
  unfold decisions_of in *. simpl.
  destruct (String.eqb k "__meta__") eqn:Hk; simpl.
  - apply String.eqb_eq in Hk. subst k.
    apply String.eqb_neq in Hs. now rewrite Hs.
  - now rewrite IH.
Qed.

Lemma decisions_of_keys (items : dict) (k : string) :
  In k (map fst (decisions_of items)) -> In k (map fst items).
Proof.
  unfold decisions_of. intros H. apply in_map_iff in H.
  destruct H as ([k' v] & <- & Hin). apply filter_In in Hin.
  apply in_map_iff. exists (k', v). tauto.
Qed.

Lemma decisions_of_wf (items : dict) : dict_wf items -> dict_wf (decisions_of items).
Proof.
  unfold dict_wf, decisions_of.
  induction items as [| [k v] rest IH]; intros Hwf; simpl; [constructor |].
  inversion Hwf as [| ? ? Hk Hrest]; subst.
  destruct (negb (String.eqb k "__meta__")); simpl; [| now apply IH].
  constructor; [| now apply IH].
  intros H. apply Hk. now apply (decisions_of_keys rest).
Qed.

Lemma dict_get_skip (pre post : dict) (s k : string) (v : value) :
  k <> s -> dict_get (pre ++ (s, v) :: post) k = dict_get (pre ++ post) k.
Proof.
  intros Hk. apply String.eqb_neq in Hk.
  induction pre as [| [k' x] pre IH]; simpl.
  - now rewrite Hk.
  - now rewrite IH.
Qed.

Lemma history_date_of_skip (pre post : dict) (s : string) (v : value) :
  s <> "__meta__" ->
  history_date_of (pre ++ (s, v) :: post) = history_date_of (pre ++ post).
Proof.
  intros Hs. unfold history_date_of.
  rewrite dict_get_skip; [reflexivity |].
  intros H. now symmetry in H.
Qed.

(** The loop over two runs of entries is the loop over the second run
    started where the first one stopped, unless the first one raised. *)
Lemma history_loop_app (date cf : value) (a b : dict) (h : dict) :
  history_loop date cf (a ++ b) h
  = match history_loop date cf a h with
    | (h', None) => history_loop date cf b h'
    | (h', Some e) => (h', Some e)
    end.
Proof.
  revert h. induction a as [| [k v] a IH]; intros h; [reflexivity |].
  simpl. destruct v; try apply IH.
  destruct (build_record date cf k d); [apply IH | reflexivity].
Qed.

(** The loop writes under the keys it walks and nowhere else. *)
Lemma history_loop_get_other (date cf : value) (ds h : dict) (s : string) :
  ~ In s (map fst ds) ->
  dict_get (fst (history_loop date cf ds h)) s = dict_get h s.
Proof.
  revert h. induction ds as [| [k v] ds IH]; intros h Hn; [reflexivity |].
  simpl in Hn. simpl.
  assert (Hk : s <> k) by (intros ->; apply Hn; now left).
  assert (Hds : ~ In s (map fst ds)) by (intros H; apply Hn; now right).
  destruct v; try now apply IH.
  destruct (build_record date cf k d); [| reflexivity].
  rewrite IH by assumption. now apply dict_get_set_other.
Qed.


(** When the loop ends without an exception every decision that is a
    mapping has its record. *)
Lemma history_loop_complete (date cf : value) (ds h : dict) (s : string)
    (d : dict) :
  dict_wf ds -> dict_get ds s = Some (VDict d) ->
  snd (history_loop date cf ds h) = None ->
  exists r, build_record date cf s d = Ok r /\
            dict_get (fst (history_loop date cf ds h)) s = Some (VList [r]).
Proof.
  revert h. induction ds as [| [k v] ds IH]; intros h Hwf Hget Hnone;
    [discriminate Hget |].
  inversion Hwf as [| ? ? Hk Hrest]; subst. simpl in Hk.
  simpl in Hget. destruct (String.eqb s k) eqn:Hsk.
  - apply String.eqb_eq in Hsk. subst k. injection Hget as ->.
    simpl in *. destruct (build_record date cf s d) as [r | e];
      [| discriminate Hnone].
    exists r. split; [reflexivity |].
    rewrite history_loop_get_other by assumption. apply dict_get_set_same.
  - simpl in *. destruct v; try (now apply IH).
    destruct (build_record date cf k d0) as [r | e]; [| discriminate Hnone].
    now apply IH.
Qed.

(** The keys of the result are keys of the walked entries or keys that were
    there before. *)
Lemma history_loop_absent (date cf : value) (ds h : dict) (s : string) :
  ~ In s (map fst ds) -> dict_get h s = None ->
  dict_get (fst (history_loop date cf ds h)) s = None.
Proof.
  intros Hn Hh. now rewrite history_loop_get_other.
Qed.




Lemma build_record_inv (date cf : value) (s : string) (d : dict) (r0 : value) :
  build_record date cf s d = Ok r0 ->
  exists t,
    (if zero_hold d then hold_repair cf s (recorded_target d)
     else Ok (recorded_target d)) = Ok t /\
    r0 = VDict [ ("date", date);
                 ("action", recorded_action d);
                 ("cash_change", recorded_cash_change d);
                 ("target_cash_amount", t);
                 ("reasons", dict_get_default d "reasons" (VList []));
                 ("confidence", dict_get_default d "confidence" (VNum (1 # 2))) ].
Proof.
  unfold build_record.
  fold (recorded_action d) (recorded_cash_change d) (recorded_target d).
  fold (zero_hold d).
  intros H. step H t. injection H as <-. now exists t.
Qed.

Lemma build_history_nonempty (items : dict) (cf : value) :
  items <> [] ->
  _build_history_from_previous_decisions (VDict items) cf
  = fst (history_loop (history_date_of items) cf (decisions_of items) []).
Proof.
  intros Hi. unfold _build_history_from_previous_decisions.
  destruct items; [contradiction | reflexivity].
Qed.



(** C4, as the code has it.  The function returns a mapping whatever it is
    given, and
    - a prior decision set that is not a mapping gives the empty mapping;
    - an entry that is not a mapping is skipped alone: the result is the
      one of the same input without that entry;
    - an exception raised while the entry of one symbol is handled ends the
      loop: the result is what the entries before it gave, and neither that
      symbol nor any later one gets a record. *)
Theorem history_reconstruction_errors :
  (forall pd cf,
     (forall items, pd <> VDict items) ->
     _build_history_from_previous_decisions pd cf = []) /\
  (forall pre post s v cf,
     s <> "__meta__" ->
     (forall d, v <> VDict d) ->
     _build_history_from_previous_decisions (VDict (pre ++ (s, v) :: post)) cf
     = _build_history_from_previous_decisions (VDict (pre ++ post)) cf) /\
  (forall pre post s d cf e,
     s <> "__meta__" ->
     build_record (history_date_of (pre ++ (s, VDict d) :: post)) cf s d = Raise e ->
     _build_history_from_previous_decisions (VDict (pre ++ (s, VDict d) :: post)) cf
     = fst (history_loop (history_date_of (pre ++ (s, VDict d) :: post)) cf
              (decisions_of pre) []) /\
     forall t, ~ In t (map fst pre) ->
       dict_get (_build_history_from_previous_decisions
                   (VDict (pre ++ (s, VDict d) :: post)) cf) t = None).
Proof.
  split; [| split].
  - intros pd cf Hpd. unfold _build_history_from_previous_decisions.
    destruct (truthy pd); [| reflexivity].
    destruct pd; try reflexivity. now elim (Hpd d).
  - intros pre post s v cf Hs Hv.
    assert (Hskip :
      fst (history_loop (history_date_of (pre ++ (s, v) :: post)) cf
             (decisions_of (pre ++ (s, v) :: post)) [])
      = fst (history_loop (history_date_of (pre ++ post)) cf
               (decisions_of (pre ++ post)) [])).
    { rewrite history_date_of_skip by assumption.
      rewrite !decisions_of_app. rewrite !history_loop_app.
      destruct (history_loop (history_date_of (pre ++ post)) cf
                  (decisions_of pre) []) as [h [e |]]; [reflexivity |].
      unfold decisions_of at 1. simpl.
      apply String.eqb_neq in Hs. rewrite Hs. simpl.
      destruct v; try reflexivity. now elim (Hv d). }
    rewrite build_history_nonempty by (now destruct pre).
    rewrite Hskip.
    unfold _build_history_from_previous_decisions.
    destruct (pre ++ post); reflexivity.
  - intros pre post s d cf e Hs Hraise.
    assert (Hstop :
      _build_history_from_previous_decisions
        (VDict (pre ++ (s, VDict d) :: post)) cf
      = fst (history_loop (history_date_of (pre ++ (s, VDict d) :: post)) cf
               (decisions_of pre) [])).
    { rewrite build_history_nonempty by (now destruct pre).
      rewrite decisions_of_app, history_loop_app.
      destruct (history_loop (history_date_of (pre ++ (s, VDict d) :: post)) cf
                  (decisions_of pre) []) as [h [e' |]]; [reflexivity |].
      unfold decisions_of at 1. simpl.
      apply String.eqb_neq in Hs. rewrite Hs. simpl.
      now rewrite Hraise. }
    split; [exact Hstop |].
    intros t Ht. rewrite Hstop. apply history_loop_absent; [| reflexivity].
    intros H. apply Ht. now apply decisions_of_keys.
Qed.

(** Witness of C4: with the value of AAA missing today, the record of AAA
    raises; AAA and BBB, which comes after it, get no record. *)
Lemma history_reconstruction_errors_witness :
  "AAA" <> "__meta__" /\
  build_record
    (history_date_of ([("__meta__", VDict [("date", VStr "2024-03-14")])]
                      ++ ("AAA", VDict placeholder_hold)
                         :: [("BBB", VDict purchase)]))
    features_with_null_position "AAA" placeholder_hold
    = Raise (TypeError "'>' not supported") /\
  _build_history_from_previous_decisions (VDict yesterday)
    features_with_null_position = [] /\
  dict_get (_build_history_from_previous_decisions (VDict yesterday)
              features_with_null_position) "BBB" = None.
Proof.
  assert (Hs : "AAA" <> "__meta__") by discriminate.
  destruct history_reconstruction_errors as (_ & _ & Habort).
  destruct (Habort [("__meta__", VDict [("date", VStr "2024-03-14")])]
              [("BBB", VDict purchase)] "AAA" placeholder_hold
              features_with_null_position _ Hs eq_refl) as [Hstop Hnone].
  split; [exact Hs |]. split; [reflexivity |]. split.
  - exact Hstop.
  - apply Hnone. simpl. intuition discriminate.
Defined.

(** C4 as the claim states it fails: BBB is a well-formed decision, on its
    own it gets its record; after AAA, whose handling raises, it gets
    none. *)
Lemma remaining_symbol_loses_record :
  build_record (VStr "2024-03-14") features_with_null_position "AAA" placeholder_hold
    = Raise (TypeError "'>' not supported") /\
  (exists r,
     dict_get (_build_history_from_previous_decisions
                 (VDict [("BBB", VDict purchase)]) features_with_null_position)
       "BBB" = Some (VList [r])) /\
  dict_get (_build_history_from_previous_decisions (VDict yesterday)
              features_with_null_position) "BBB" = None.
Proof.
  split; [reflexivity |]. split; [eexists; reflexivity | reflexivity].
Qed.

(** ** C8 and C9: the request payload *)

Section FoldSet.

Variable A : Type.
Variable key : A -> string.
Variable val : A -> value.

Let put (d : dict) (x : A) : dict := dict_set (key x) (val x) d.

Lemma fold_set_notin (l : list A) (d : dict) (k : string) :
  ~ In k (map key l) -> dict_get (fold_left put l d) k = dict_get d k.
Proof.
  revert d. induction l as [| a l IH]; intros d Hn; simpl; [reflexivity |].
  rewrite IH by (intros H; apply Hn; now right).
  apply dict_get_set_other. intros ->. apply Hn. now left.
Qed.

Lemma fold_set_last (pre post : list A) (x : A) (d : dict) :
  ~ In (key x) (map key post) ->
  dict_get (fold_left put (pre ++ x :: post) d) (key x) = Some (val x).
Proof.
  intros Hn. rewrite fold_left_app. simpl.
  rewrite fold_set_notin by assumption. apply dict_get_set_same.
Qed.

Lemma fold_set_get (l : list A) (d : dict) (k : string) (v : value) :
  dict_get (fold_left put l d) k = Some v ->
  (exists x, In x l /\ v = val x) \/ dict_get d k = Some v.
Proof.
  revert d. induction l as [| a l IH]; intros d Hg; simpl in Hg; [now right |].
  apply IH in Hg. destruct Hg as [(x & Hx & ->) | Hg].
  - left. exists x. split; [now right | reflexivity].
  - destruct (string_dec k (key a)) as [-> | Hk].
    + unfold put in Hg. rewrite dict_get_set_same in Hg. injection Hg as <-.
      left. exists a. split; [now left | reflexivity].
    + unfold put in Hg. rewrite dict_get_set_other in Hg by assumption.
      now right.
Qed.

End FoldSet.

Lemma without_fundamentals_get (f : dict) (k : string) :
  k <> "fundamental_data" ->
  dict_get (without_fundamentals f) k = dict_get f k.
Proof.
  intros Hk. unfold without_fundamentals.
  induction f as [| [k' v] f IH]; [reflexivity |]. simpl.
  destruct (String.eqb k' "fundamental_data") eqn:Hf; simpl.
  - apply String.eqb_eq in Hf. subst k'.
    apply String.eqb_neq in Hk. now rewrite Hk.
  - now rewrite IH.
Qed.

Lemma without_fundamentals_none (f : dict) :
  dict_has (without_fundamentals f) "fundamental_data" = false.
Proof.
  unfold dict_has.
  destruct (dict_get (without_fundamentals f) "fundamental_data") eqn:Hg;
    [| reflexivity].
  exfalso.
  assert (Hin : In "fundamental_data" (map fst (without_fundamentals f))).
  { destruct (in_dec string_dec "fundamental_data"
                (map fst (without_fundamentals f))) as [H | H]; [exact H |].
    apply dict_get_none_keys in H. congruence. }
  apply in_map_iff in Hin. destruct Hin as ([k v'] & Hk & Hin).
  apply filter_In in Hin. destruct Hin as [_ Hin]. simpl in Hk, Hin. subst k.
  discriminate Hin.
Qed.

(** What the loop of lines 194-211 leaves when it raises nothing. *)
Lemma symbols_loop_spec (features_list : list item) (symbols symbols' : dict)
    (total total' : Q) :
  symbols_loop features_list symbols total = Ok (symbols', total') ->
  symbols'
  = fold_left (fun d it => dict_set (symbol_of it) (symbol_entry it) d)
      features_list symbols /\
  total' = fold_left Qplus (map position_value features_list) total.
Proof.
  revert symbols total.
  induction features_list as [| it rest IH]; intros symbols total H.
  - injection H as <- <-. now split.
  - simpl in H. step H filtered. step H v. step H t.
    apply IH in H. destruct H as [-> ->].
    unfold filter_features in Hfiltered.
    destruct (features_of it) as [| | | | | f | |] eqn:Hf;
      try discriminate Hfiltered.
    injection Hfiltered as <-.
    assert (Hd : features_dict it = f) by (unfold features_dict; now rewrite Hf).
    simpl. unfold symbol_entry. rewrite Hd. split; [reflexivity |].
    f_equal. unfold position_value. rewrite Hd.
    unfold position_value_of in Hv. simpl in Hv.
    unfold dict_get_default in Hv at 1.
    fold (without_fundamentals f) in Hv.
    rewrite without_fundamentals_get in Hv by discriminate.
    fold (dict_get_default f "position_state" (VDict [])) in Hv.
    destruct (dict_get_default f "position_state" (VDict []));
      try discriminate Hv.
    simpl in Hv. injection Hv as <-.
    unfold py_add_num in Ht.
    destruct (num_of (dict_get_default d "current_position_value" (VNum 0)))
      as [x |]; [| discriminate Ht].
    destruct (beyond_float x); [discriminate Ht |].
    now injection Ht as <-.
Qed.

Lemma portfolio_snapshot_spec (E : externals) (cfg ctx : value) (total : Q)
    (total_assets available_cash : value) :
  portfolio_snapshot E cfg ctx total = Ok (total_assets, available_cash) ->
  (has_portfolio ctx = true ->
   exists cash,
     live_cash E ctx = Some cash /\
     total_assets = VNum (cash + total) /\ available_cash = VNum cash) /\
  (has_portfolio ctx = false ->
   total_assets = configured_total_cash cfg /\
   exists t, num_of total_assets = Some t /\ available_cash = VNum (t - total)).
Proof.
  unfold portfolio_snapshot. intros H. step H portfolio_cfg. step H live.
  destruct live.
  - (* the branch of line 216 *)
    step H portfolio. step H cash. step H current_cash. injection H as <- <-.
    assert (Hctx : exists c, ctx = VDict c /\ dict_has c "portfolio" = true
                             /\ dict_get c "portfolio" = Some portfolio).
    { destruct (truthy ctx); [| discriminate Hlive].
      destruct ctx as [| | | | l | c | |]; try discriminate Hlive;
        try discriminate Hportfolio.
      exists c. injection Hlive as Hlive. repeat split; try assumption.
      unfold py_index in Hportfolio.
      destruct (dict_get c "portfolio"); [now injection Hportfolio as -> |].
      discriminate Hportfolio. }
    destruct Hctx as (c & -> & Hhas & Hget). split.
    + intros _. exists current_cash. repeat split.
      unfold live_cash. rewrite Hget.
      unfold py_getattr in Hcash.
      destruct portfolio as [| | | | | | | attrs]; try discriminate Hcash.
      destruct (dict_get attrs "cash") as [x |]; [| discriminate Hcash].
      injection Hcash as ->. now rewrite Hcurrent_cash.
    + simpl. intros Hno. congruence.
  - (* the branch of line 221 *)
    step H ta. step H av. injection H as <- <-.
    assert (Hno : has_portfolio ctx = false).
    { destruct ctx as [| | | | l | c | |]; try reflexivity. simpl.
      destruct c as [| kv c]; [reflexivity |]. simpl in Hlive.
      now injection Hlive as ->. }
    split; [intros Hyes; congruence |]. intros _. split.
    + unfold configured_total_cash.
      destruct cfg as [| b | q | cs | l | c | iso | attrs]; simpl in Hportfolio_cfg.
      * injection Hportfolio_cfg as <-. now injection Hta as <-.
      * destruct b; [discriminate Hportfolio_cfg |].
        injection Hportfolio_cfg as <-. now injection Hta as <-.
      * destruct (negb (Qeq_bool q 0)); [discriminate Hportfolio_cfg |].
        injection Hportfolio_cfg as <-. now injection Hta as <-.
      * destruct (negb (String.eqb cs "")); [discriminate Hportfolio_cfg |].
        injection Hportfolio_cfg as <-. now injection Hta as <-.
      * destruct l; [| discriminate Hportfolio_cfg].
        injection Hportfolio_cfg as <-. now injection Hta as <-.
      * destruct c as [| kv c].
        -- injection Hportfolio_cfg as <-. now injection Hta as <-.
        -- injection Hportfolio_cfg as <-.
           destruct (dict_get_default (kv :: c) "portfolio" (VDict []));
             try discriminate Hta.
           now injection Hta as <-.
      * discriminate Hportfolio_cfg.
      * discriminate Hportfolio_cfg.
    + unfold py_sub_num in Hav. destruct (num_of ta) as [t |]; [| discriminate Hav].
      destruct (beyond_float t); [discriminate Hav |].
      injection Hav as <-. now exists t.
Qed.

Lemma json_dumps_ok (v payload : value) : json_dumps v = Ok payload -> payload = v.
Proof.
  unfold json_dumps. destruct (json_serializable v); [| discriminate].
  intros H. now injection H as <-.
Qed.

(** C8.  When the call is reached, the [portfolio_info] of the payload
    holds: as [position_value] the position values of all candidates added
    up; with a portfolio in [ctx], the cash of that portfolio plus this sum
    as [total_assets] and the cash as [available_cash]; otherwise the
    configured [portfolio.total_cash] (100000 when absent) as
    [total_assets] and that minus the sum as [available_cash].  With a cash
    of 50000 and a sum of 20000 this is 70000 and 50000.  The request
    carries this payload with its numbers rounded. *)
Theorem portfolio_info_rule (E : externals) (features_list : list item)
    (cfg run_id ctx previous_decisions decision_history : value) (p : prepared) :
  prepare E features_list cfg run_id ctx previous_decisions decision_history = Ok p ->
  exists total_assets available_cash,
    portfolio_info (filter_input p) "total_assets" = Some total_assets /\
    portfolio_info (filter_input p) "available_cash" = Some available_cash /\
    portfolio_info (filter_input p) "position_value"
      = Some (VNum (aggregate_position_value features_list)) /\
    (has_portfolio ctx = true ->
     exists cash,
       live_cash E ctx = Some cash /\
       total_assets = VNum (cash + aggregate_position_value features_list) /\
       available_cash = VNum cash /\
       (cash == 50000 -> aggregate_position_value features_list == 20000 ->
        cash + aggregate_position_value features_list == 70000)%Q) /\
    (has_portfolio ctx = false ->
     total_assets = configured_total_cash cfg /\
     exists t,
       num_of total_assets = Some t /\
       available_cash = VNum (t - aggregate_position_value features_list)) /\
    req_payload (the_request p)
      = round_numbers_in_obj (round_number E) (filter_input p).
Proof.
  intros Hp. apply prepare_inv in Hp.
  destruct Hp as (llm_cfg_raw & llm_cfg & system_prompt & symbols & total
                  & total_assets & available_cash & hist & payload
                  & _ & _ & _ & _ & Hloop & Hsnap & _ & Hdump & Hfi & _ & Hpay & _).
  apply symbols_loop_spec in Hloop. destruct Hloop as [_ Htotal].
  apply portfolio_snapshot_spec in Hsnap. destruct Hsnap as [Hlive Hfixed].
  apply json_dumps_ok in Hdump.
  fold (aggregate_position_value features_list) in Htotal. subst total.
  exists total_assets, available_cash. rewrite Hfi.
  split; [reflexivity |]. split; [reflexivity |]. split; [reflexivity |].
  split; [| split].
  - intros Hyes. destruct (Hlive Hyes) as (cash & Hc & Ht & Ha).
    exists cash. repeat split; try assumption.
    intros Hcash Hagg. rewrite Hcash, Hagg. reflexivity.
  - exact Hfixed.
  - now rewrite Hpay, Hdump.
Qed.

(** Witness of C8: 50000 in cash, AAPL worth 12000 and MSFT worth 8000. *)
Lemma portfolio_info_rule_witness :
  exists p,
    prepare (world refusing_service) three_candidates minimal_cfg VNone live_ctx
      VNone VNone = Ok p /\
    has_portfolio live_ctx = true /\
    portfolio_info (filter_input p) "total_assets" = Some (VNum 70000) /\
    portfolio_info (filter_input p) "available_cash" = Some (VNum 50000) /\
    portfolio_info (filter_input p) "position_value" = Some (VNum 20000).
Proof.
  destruct (prepare (world refusing_service) three_candidates minimal_cfg VNone
              live_ctx VNone VNone) as [p | e] eqn:Hp;
    [| vm_compute in Hp; discriminate Hp].
  exists p. split; [reflexivity |]. split; [reflexivity |].
  destruct (portfolio_info_rule (world refusing_service) three_candidates
              minimal_cfg VNone live_ctx VNone VNone p Hp)
    as (ta & av & Hta & Hav & Hpos & Hlive & _ & _).
  destruct (Hlive eq_refl) as (cash & Hcash & -> & -> & _).
  vm_compute in Hcash. injection Hcash as <-.
  rewrite Hta, Hav, Hpos. repeat split.
Defined.

Lemma symbols_loop_dicts (features_list : list item) (symbols : dict) (total : Q)
    (out : dict * Q) :
  symbols_loop features_list symbols total = Ok out ->
  forall it, In it features_list -> features_of it = VDict (features_dict it).
Proof.
  revert symbols total.
  induction features_list as [| a rest IH]; intros symbols total H it Hin;
    [destruct Hin |].
  simpl in H. step H filtered. step H v. step H t.
  destruct Hin as [<- | Hin]; [| eapply IH; eassumption].
  unfold filter_features in Hfiltered. unfold features_dict.
  destruct (features_of a); try discriminate Hfiltered. reflexivity.
Qed.

Lemma dict_get_map (g : value -> value) (d : dict) (k : string) :
  dict_get (map (fun kv => let '(k', x) := kv in (k', g x)) d) k
  = option_map g (dict_get d k).
Proof.
  induction d as [| [k' x] d IH]; [reflexivity |]. simpl.
  now destruct (String.eqb k k').
Qed.

(** Rounding keeps the sections of the features of every symbol. *)
Lemma payload_features_rounded (round : Q -> Q) (payload : value) (s : string)
    (f' : dict) :
  payload_features (round_numbers_in_obj round payload) s = Some f' ->
  exists f,
    payload_features payload s = Some f /\
    f' = map (fun kv => let '(k, x) := kv in (k, round_numbers_in_obj round x)) f.
Proof.
  unfold payload_features.
  destruct payload as [| | | | | d | |]; try discriminate.
  simpl. rewrite dict_get_map.
  destruct (dict_get d "symbols") as [symbols |]; [| discriminate].
  destruct symbols as [| | | | | symbols | |]; try discriminate.
  simpl. rewrite dict_get_map.
  destruct (dict_get symbols s) as [entry |]; [| discriminate].
  destruct entry as [| | | | | entry | |]; try discriminate.
  simpl. rewrite dict_get_map.
  destruct (dict_get entry "features") as [features |]; [| discriminate].
  destruct features as [| | | | | features | |]; try discriminate.
  simpl. intros H. injection H as <-. now exists features.
Qed.

Lemma payload_features_filter_input (total_assets available_cash : value)
    (total : Q) (symbols : dict) (hist : value) (s : string) :
  payload_features
    (filter_input_of total_assets available_cash total symbols hist) s
  = match dict_get symbols s with
    | Some (VDict entry) =>
        match dict_get entry "features" with
        | Some (VDict features) => Some features
        | _ => None
        end
    | _ => None
    end.
Proof. reflexivity. Qed.

(** C9, as the code has it.  When the call is reached, the payload holds
    under the symbol of a candidate the feature snapshot of the last
    candidate of the list that has this symbol, without its
    ["fundamental_data"] section and with its other sections as they are,
    in their order; so for every candidate when the symbols are distinct.
    No features in the payload, rounded or not, have a ["fundamental_data"]
    section. *)
Theorem fundamentals_withheld (E : externals) (features_list : list item)
    (cfg run_id ctx previous_decisions decision_history : value) (p : prepared) :
  prepare E features_list cfg run_id ctx previous_decisions decision_history = Ok p ->
  (forall pre it post,
     features_list = pre ++ it :: post ->
     ~ In (symbol_of it) (symbols_of post) ->
     features_of it = VDict (features_dict it) /\
     payload_features (filter_input p) (symbol_of it)
       = Some (without_fundamentals (features_dict it))) /\
  (forall s f,
     payload_features (filter_input p) s = Some f ->
     dict_has f "fundamental_data" = false) /\
  (forall s f,
     payload_features (req_payload (the_request p)) s = Some f ->
     dict_has f "fundamental_data" = false).
Proof.
  intros Hp. apply prepare_inv in Hp.
  destruct Hp as (llm_cfg_raw & llm_cfg & system_prompt & symbols & total
                  & total_assets & available_cash & hist & payload
                  & _ & _ & _ & _ & Hloop & _ & _ & Hdump & Hfi & _ & Hpay & _).
  assert (Hdicts := symbols_loop_dicts _ _ _ _ Hloop).
  apply symbols_loop_spec in Hloop. destruct Hloop as [Hsym _].
  apply json_dumps_ok in Hdump.
  assert (Hclean : forall s f,
            payload_features (filter_input p) s = Some f ->
            dict_has f "fundamental_data" = false).
  { intros s f. rewrite Hfi, payload_features_filter_input.
    destruct (dict_get symbols s) as [entry |] eqn:Hg; [| discriminate].
    rewrite Hsym in Hg. apply fold_set_get in Hg.
    destruct Hg as [(x & _ & ->) | Hg]; [| discriminate Hg].
    simpl. intros H. injection H as <-. apply without_fundamentals_none. }
  split; [| split].
  - intros pre it post Hsplit Hlast. split.
    + apply Hdicts. rewrite Hsplit. apply in_elt.
    + rewrite Hfi, payload_features_filter_input, Hsym, Hsplit.
      rewrite (fold_set_last item symbol_of symbol_entry pre post it [])
        by exact Hlast.
      reflexivity.
  - exact Hclean.
  - intros s f'. rewrite Hpay, Hdump, <- Hfi. intros H.
    apply payload_features_rounded in H. destruct H as (f & Hf & ->).
    apply Hclean in Hf. unfold dict_has in *. rewrite dict_get_map.
    now destruct (dict_get f "fundamental_data").
Qed.

(** Witness of C9: AAPL comes with a ["fundamental_data"] section, the
    payload has its position state alone. *)
Lemma fundamentals_withheld_witness :
  exists p,
    prepare (world refusing_service) three_candidates minimal_cfg VNone VNone
      VNone VNone = Ok p /\
    dict_has (features_dict (candidate "AAPL"
                [position 12000; ("fundamental_data", VDict [("pe", VNum 31)])]))
      "fundamental_data" = true /\
    payload_features (filter_input p) "AAPL" = Some [position 12000] /\
    payload_features (req_payload (the_request p)) "AAPL" = Some [position 12000].
Proof.
  destruct (prepare (world refusing_service) three_candidates minimal_cfg VNone
              VNone VNone VNone) as [p | e] eqn:Hp;
    [| vm_compute in Hp; discriminate Hp].
  exists p. split; [reflexivity |]. split; [reflexivity |].
  destruct (fundamentals_withheld (world refusing_service) three_candidates
              minimal_cfg VNone VNone VNone VNone p Hp) as (Hlast & _ & _).
  destruct (Hlast [] (candidate "AAPL"
              [position 12000; ("fundamental_data", VDict [("pe", VNum 31)])])
              [candidate "MSFT" [position 8000];
               candidate "GOOGL" [("market_data", VDict [("close", VNum 140)])]]
              eq_refl) as [_ Hpay].
  { simpl. intuition discriminate. }
  split; [exact Hpay |].
  vm_compute in Hp. injection Hp as <-. reflexivity.
Defined.

(** C9 as the claim states it fails: of two candidates with the symbol
    AAPL the payload holds the snapshot of the second; the one of the first
    is not in it. *)
Lemma repeated_symbol_overwritten :
  exists p,
    prepare (world refusing_service) repeated_candidates minimal_cfg VNone VNone
      VNone VNone = Ok p /\
    without_fundamentals
      (features_dict (candidate "AAPL" [("market_data", VDict [("close", VNum 189)])]))
      = [("market_data", VDict [("close", VNum 189)])] /\
    payload_features (filter_input p) "AAPL"
      = Some [("market_data", VDict [("close", VNum 191)])].
Proof.
  eexists. split; [vm_compute; reflexivity |]. split; reflexivity.
Qed.

(** ** C7: the trade date *)

Lemma scan_undated (E : externals) (it : item) (rest : list item) :
  undated it = true ->
  scan_market_data E (it :: rest) = scan_market_data E rest.
Proof.
  unfold undated, market_data_of. intros Hu. simpl.
  destruct (features_of it) as [| | | | | f | |]; try discriminate Hu.
  simpl.
  destruct (dict_get_default f "market_data" (VDict []))
    as [| | | | | md | |]; try discriminate Hu.
  apply andb_true_iff in Hu. destruct Hu as [Hd Ht].
  apply negb_true_iff in Hd. simpl. rewrite Hd. simpl.
  unfold dict_has.
  destruct (dict_get md "timestamp") as [ts |]; [| reflexivity].
  simpl. destruct ts; try reflexivity; discriminate Ht.
Qed.

Lemma scan_undated_prefix (E : externals) (pre rest : list item) :
  forallb undated pre = true ->
  scan_market_data E (pre ++ rest) = scan_market_data E rest.
Proof.
  induction pre as [| it pre IH]; intros Hu; [reflexivity |].
  simpl in Hu. apply andb_true_iff in Hu. destruct Hu as [Hit Hpre].
  change ((it :: pre) ++ rest) with (it :: (pre ++ rest)).
  rewrite scan_undated by assumption. now apply IH.
Qed.

Lemma scan_dated (E : externals) (it : item) (rest : list item) (d : value) :
  date_field it = Some d ->
  scan_market_data E (it :: rest) = Ok (Some d).
Proof.
  unfold date_field, market_data_of. intros Hd. simpl.
  destruct (features_of it) as [| | | | | f | |]; try discriminate Hd.
  simpl.
  destruct (dict_get_default f "market_data" (VDict []))
    as [| | | | | md | |]; try discriminate Hd.
  simpl. unfold dict_has. now rewrite Hd.
Qed.

(** Lines 279-291 when the loop has left nothing true in [trade_date]. *)
Lemma ctx_or_today (E : externals) (ctx trade_date : value) :
  truthy trade_date = false ->
  match date_from_ctx ctx trade_date with
  | Ok v => if negb (truthy v) then VStr (today E) else v
  | Raise _ => VStr (today E)
  end
  = match ctx_date_of ctx with
    | Some s => VStr s
    | None => VStr (today E)
    end.
Proof.
  intros Hf. unfold date_from_ctx. rewrite Hf. cbn [negb andb].
  destruct ctx as [| b | q | s | l | c | iso | attrs]; cbn [truthy ctx_date_of].
  - simpl. now rewrite Hf.
  - destruct b; simpl; [reflexivity | now rewrite Hf].
  - destruct (negb (Qeq_bool q 0)); simpl; [reflexivity | now rewrite Hf].
  - destruct (negb (String.eqb s "")); simpl; [| now rewrite Hf].
    destruct (is_substring "date" s); simpl; [reflexivity | now rewrite Hf].
  - destruct l as [| x l]; [simpl; now rewrite Hf |].
    cbn [py_contains bind].
    destruct (existsb (fun x => py_eq_str x "date") (x :: l)); simpl;
      [reflexivity | now rewrite Hf].
  - destruct c as [| kv c]; [simpl; now rewrite Hf |].
    cbn [py_contains bind py_index]. unfold dict_has.
    destruct (dict_get (kv :: c) "date") as [ctx_date |]; cbn [bind];
      [| simpl; now rewrite Hf].
    destruct ctx_date as [| b | q | s | l | d | iso | attrs];
      try (simpl; now rewrite Hf).
    + simpl. now destruct (String.eqb s "").
    + simpl. now destruct (String.eqb iso "").
    + destruct (match dict_get attrs "strftime" with
                | Some _ => true
                | None => false
                end); simpl; [reflexivity | now rewrite Hf].
  - reflexivity.
  - reflexivity.
Qed.

(** C7, as the code has it, the timestamp field left aside.  The date
    given to the call is the one the resolver leaves.  For an empty
    [features_list] that is [None].  For a non-empty one, with the
    candidates taken in order and none of those looked at having a
    timestamp string: the [date] field of the first candidate whose market
    data has one, when it is true; otherwise the date of [ctx] (a date-like
    object formatted, a non-empty string as it is); otherwise the current
    system date.  An exception raised while resolving gives the current
    system date. *)
Theorem trade_date_resolution (E : externals) (features_list : list item)
    (ctx : value) :
  (forall cfg run_id previous_decisions decision_history p,
     prepare E features_list cfg run_id ctx previous_decisions decision_history
       = Ok p ->
     req_trade_date (the_request p) = resolve_trade_date E features_list ctx) /\
  (features_list = [] -> resolve_trade_date E features_list ctx = VNone) /\
  (forall pre it post d,
     features_list = pre ++ it :: post ->
     forallb undated pre = true ->
     date_field it = Some d ->
     resolve_trade_date E features_list ctx
     = if truthy d then d
       else match ctx_date_of ctx with
            | Some s => VStr s
            | None => VStr (today E)
            end) /\
  (features_list <> [] ->
   forallb undated features_list = true ->
   resolve_trade_date E features_list ctx
   = match ctx_date_of ctx with
     | Some s => VStr s
     | None => VStr (today E)
     end) /\
  (forall e,
     resolve_date_try E features_list ctx = Raise e ->
     resolve_trade_date E features_list ctx = VStr (today E)).
Proof.
  split; [| split; [| split; [| split]]].
  - intros cfg run_id pd dh p Hp. apply prepare_inv in Hp.
    destruct Hp as (? & ? & ? & ? & ? & ? & ? & ? & ? & Hp). apply Hp.
  - intros ->. reflexivity.
  - intros pre it post d Hsplit Hpre Hd.
    unfold resolve_trade_date, resolve_date_try.
    destruct features_list as [| a l] eqn:Hl; [now destruct pre |].
    rewrite Hsplit, scan_undated_prefix by assumption.
    rewrite (scan_dated E it post d Hd). cbn [bind].
    destruct (truthy d) eqn:Ht.
    + unfold date_from_ctx. rewrite Ht. simpl. now rewrite Ht.
    + rewrite <- (ctx_or_today E ctx d Ht).
      destruct (date_from_ctx ctx d) as [v | e]; simpl; [| reflexivity].
      now destruct (truthy v).
  - intros Hne Hall.
    unfold resolve_trade_date, resolve_date_try.
    destruct features_list as [| a l] eqn:Hl; [contradiction |].
    rewrite <- (app_nil_r (a :: l)), scan_undated_prefix by assumption.
    cbn [scan_market_data bind].
    rewrite <- (ctx_or_today E ctx VNone eq_refl).
    destruct (date_from_ctx ctx VNone) as [v | e]; simpl; [| reflexivity].
    now destruct (truthy v).
  - intros e He. unfold resolve_trade_date. now rewrite He.
Qed.

(** Witness of C7: a candidate without dates and then one with a date; a
    candidate without dates and a date in [ctx]; no date anywhere. *)
Lemma trade_date_resolution_witness :
  forallb undated [candidate "AAPL" [position 12000]] = true /\
  date_field dated_candidate = Some (VStr "2024-03-15") /\
  resolve_trade_date (world refusing_service)
    [candidate "AAPL" [position 12000]; dated_candidate] VNone
    = VStr "2024-03-15" /\
  resolve_trade_date (world refusing_service)
    [candidate "AAPL" [position 12000]] dated_ctx = VStr "2024-03-15" /\
  resolve_trade_date (world refusing_service)
    [candidate "AAPL" [position 12000]] VNone = VStr "2026-01-15".
Proof.
  split; [reflexivity |]. split; [reflexivity |].
  destruct (trade_date_resolution (world refusing_service)
              [candidate "AAPL" [position 12000]; dated_candidate] VNone)
    as (_ & _ & Hdated & _).
  destruct (trade_date_resolution (world refusing_service)
              [candidate "AAPL" [position 12000]] dated_ctx)
    as (_ & _ & _ & Hctx & _).
  destruct (trade_date_resolution (world refusing_service)
              [candidate "AAPL" [position 12000]] VNone)
    as (_ & _ & _ & Hnow & _).
  split; [| split].
  - exact (Hdated [candidate "AAPL" [position 12000]] dated_candidate []
             (VStr "2024-03-15") eq_refl eq_refl eq_refl).
  - apply Hctx; [discriminate | reflexivity].
  - apply Hnow; [discriminate | reflexivity].
Defined.

(** C7 as the claim states it fails: with no candidates the call gets
    [None], though [ctx] has a date and the clock shows 2026-01-15. *)
Lemma no_candidates_no_date :
  ctx_date_of dated_ctx = Some "2024-03-15" /\
  today (world refusing_service) = "2026-01-15" /\
  exists p,
    prepare (world refusing_service) [] minimal_cfg VNone dated_ctx VNone VNone
      = Ok p /\
    req_trade_date (the_request p) = VNone.
Proof.
  split; [reflexivity |]. split; [reflexivity |].
  eexists. split; [vm_compute; reflexivity | reflexivity].
Qed.

(** X1.  The timestamp field never gives the date.  The two statements
    [from datetime import datetime] of lines 289 and 295 make [datetime] a
    local name of the function, so reading it at line 272 raises
    [UnboundLocalError], which the bare [except] of line 275 swallows:
    whatever [fromisoformat] would answer, a candidate whose market data has
    a timestamp string and no date is passed over, and when it is the only
    candidate and [ctx] is [None] the date is the one of the clock. *)
Theorem timestamp_never_consulted (E : externals) (it : item) (rest : list item)
    (f market_data : dict) (timestamp : string) :
  features_of it = VDict f ->
  dict_get_default f "market_data" (VDict []) = VDict market_data ->
  dict_get market_data "date" = None ->
  dict_get market_data "timestamp" = Some (VStr timestamp) ->
  parse_timestamp E timestamp = Raise (UnboundLocalError "datetime") /\
  scan_market_data E (it :: rest) = scan_market_data E rest /\
  resolve_trade_date E [it] VNone = VStr (today E).
Proof.
  intros Hf Hmd Hdate Hts.
  assert (Hscan : forall l, scan_market_data E (it :: l) = scan_market_data E l).
  { intros l. simpl. rewrite Hf. cbn [py_get bind]. rewrite Hmd.
    cbn [py_contains py_index bind]. unfold dict_has.
    rewrite Hdate, Hts. reflexivity. }
  split; [reflexivity |]. split; [apply Hscan |].
  unfold resolve_trade_date, resolve_date_try. rewrite Hscan. reflexivity.
Qed.

(** Witness of X1: the timestamp 2024-03-15T09:30:00Z, which this world
    parses to 2024-03-15, on a day when the clock shows 2026-01-15. *)
Lemma timestamp_never_consulted_witness :
  replace_Z "2024-03-15T09:30:00Z" = "2024-03-15T09:30:00+00:00" /\
  fromisoformat_date (world refusing_service) "2024-03-15T09:30:00+00:00"
    = Some "2024-03-15" /\
  resolve_trade_date (world refusing_service) [stamped_candidate] VNone
    = VStr "2026-01-15".
Proof.
  split; [reflexivity |]. split; [reflexivity |].
  exact (proj2 (proj2
    (timestamp_never_consulted (world refusing_service) stamped_candidate []
       [("market_data", VDict [("timestamp", VStr "2024-03-15T09:30:00Z")])]
       [("timestamp", VStr "2024-03-15T09:30:00Z")] "2024-03-15T09:30:00Z"
       eq_refl eq_refl eq_refl eq_refl))).
Defined.

(** ** C6: the errors that reach the caller *)









Lemma section_ok_inv (d : dict) (k : string) :
  section_ok d k = true -> dict_get_default d k (VDict []) = VDict (section d k).
Proof.
  unfold section_ok, section.
  now destruct (dict_get_default d k (VDict [])).
Qed.

Lemma number_ok_default (d : dict) (k : string) (default : value) :
  number_ok d k = true -> is_number default = true ->
  is_number (dict_get_default d k default) = true.
Proof.
  unfold number_ok, dict_get_default. now destruct (dict_get d k).
Qed.





Lemma py_or_dict (c : dict) : py_or (VDict c) (VDict []) = VDict c.
Proof. now destruct c. Qed.























(** The range matters: a position value of [10 ** 400], an [int] that no
    [float] holds, makes line 206 raise [OverflowError] before any [try],
    with the llm sub-configuration there. *)
Lemma huge_position_overflows :
  no_llm_section minimal_cfg = false /\
  item_shaped (candidate "AAPL" [position (inject_Z (10 ^ 400))]) = false /\
  filter_stocks_needing_fundamental (world refusing_service)
    [candidate "AAPL" [position (inject_Z (10 ^ 400))]]
    minimal_cfg true VNone VNone VNone VNone
  = ([], Raise (OverflowError "int too large to convert to float")).
Proof.
  repeat split; vm_compute; reflexivity.
Qed.

(** * Further properties of the code *)

(** ** The returned dictionary, on every path *)

Lemma drop_hallucinated_members (input_symbols : list string)
    (stocks kept : list value) :
  drop_hallucinated input_symbols stocks = Ok kept ->
  forall v, In v kept ->
    In v stocks /\ exists s, v = VStr s /\ In s input_symbols.
Proof.
  revert kept. induction stocks as [| x stocks IH]; intros kept H v Hv.
  - injection H as <-. destruct Hv.
  - simpl in H. step H keep. step H rest. injection H as <-.
    assert (Htail : In v rest ->
              In v (x :: stocks) /\ exists s, v = VStr s /\ In s input_symbols).
    { intros Hin. destruct (IH rest eq_refl v Hin) as [H1 H2].
      split; [now right | exact H2]. }
    destruct keep; [| now apply Htail].
    destruct Hv as [<- | Hv]; [| now apply Htail].
    split; [now left |].
    unfold in_input_symbols in Hkeep.
    destruct (hashable x); [| discriminate Hkeep].
    injection Hkeep as Hkeep. destruct x; try discriminate Hkeep.
    apply existsb_exists in Hkeep. destruct Hkeep as (y & Hy & He).
    apply String.eqb_eq in He. subst y. eauto.
Qed.

Lemma require_all_members (features_list : list item) (text : string -> string) :
  (forall v, In v (stocks_need_fundamental (require_all features_list text)) ->
     exists s, v = VStr s /\ In s (symbols_of features_list)) /\
  (forall s, In s (symbols_of features_list) ->
     dict_has (reasoning (require_all features_list text)) s = true).
Proof.
  split.
  - simpl. intros v Hv. apply in_map_iff in Hv. destruct Hv as (s & <- & Hs).
    eauto.
  - intros s Hs. unfold dict_has. simpl.
    now rewrite reasoning_for_get by assumption.
Qed.

Lemma parse_response_members (E : externals) (features_list : list item)
    (hist data meta : value) (r : filter_result) :
  parse_response E features_list hist data meta = Ok r ->
  (forall v, In v (stocks_need_fundamental r) ->
     exists s, v = VStr s /\ In s (symbols_of features_list)) /\
  (forall s, In s (symbols_of features_list) -> dict_has (reasoning r) s = true).
Proof.
  unfold parse_response. intros H. step H cached. step H latency.
  destruct data as [| | | | | d | |];
    try (injection H as <-; apply require_all_members).
  destruct d as [| kv d]; [injection H as <-; apply require_all_members |].
  destruct (dict_get_default (kv :: d) "stocks_need_fundamental" (VList []))
    as [| | | | stocks | | |];
    try (injection H as <-; apply require_all_members).
  step H kept. step H n. injection H as <-. simpl. split.
  - intros v Hv.
    now destruct (drop_hallucinated_members _ _ _ Hkept v Hv).
  - intros s Hs. unfold dict_has. rewrite fill_reasoning_get_in; [reflexivity |].
    exact (proj2 (iterate_in (set_iteration E) _ s) Hs).
Qed.

(** X2.  Whatever the inputs and whatever the classification service does,
    a dictionary that the function returns names only input symbols, as
    strings, in [stocks_need_fundamental], and has a reasoning entry for
    every input symbol. *)
Theorem result_within_input (E : externals) (features_list : list item)
    (cfg : value) (enable_llm : bool)
    (run_id ctx previous_decisions decision_history : value) (r : filter_result) :
  snd (filter_stocks_needing_fundamental E features_list cfg enable_llm run_id
         ctx previous_decisions decision_history) = Ok r ->
  (forall v, In v (stocks_need_fundamental r) ->
     exists s, v = VStr s /\ In s (symbols_of features_list)) /\
  (forall s, In s (symbols_of features_list) -> dict_has (reasoning r) s = true).
Proof.
  unfold filter_stocks_needing_fundamental.
  destruct enable_llm; simpl.
  - destruct (prepare E features_list cfg run_id ctx previous_decisions
                decision_history) as [p | e]; simpl; [| discriminate].
    intros H. injection H as <-. unfold call_and_parse.
    destruct (generate_json E (the_request p)) as [data meta | msg];
      [| apply require_all_members].
    destruct (parse_response E features_list (history p) data meta) eqn:Hparse;
      [| apply require_all_members].
    eapply parse_response_members, Hparse.
  - intros H. injection H as <-. apply require_all_members.
Qed.

(** Witness of X2: the answer that names the unknown TSLA. *)
Lemma result_within_input_witness :
  exists r,
    snd (filter_stocks_needing_fundamental (world (answering hallucinating_answer))
           three_candidates minimal_cfg true VNone VNone VNone VNone) = Ok r /\
    stocks_need_fundamental r = [VStr "AAPL"] /\
    (forall v, In v (stocks_need_fundamental r) ->
       exists s, v = VStr s /\ In s (symbols_of three_candidates)) /\
    (forall s, In s (symbols_of three_candidates) ->
       dict_has (reasoning r) s = true).
Proof.
  destruct (snd (filter_stocks_needing_fundamental
                   (world (answering hallucinating_answer)) three_candidates
                   minimal_cfg true VNone VNone VNone VNone)) as [r | e] eqn:Hr;
    [| vm_compute in Hr; discriminate Hr].
  exists r. split; [reflexivity |]. split.
  - vm_compute in Hr. injection Hr as <-. reflexivity.
  - exact (result_within_input (world (answering hallucinating_answer))
             three_candidates minimal_cfg true VNone VNone VNone VNone r Hr).
Defined.

(** ** The symbols of the payload *)

Section FoldSetKeys.

Variable A : Type.
Variable key : A -> string.
Variable val : A -> value.

Lemma fold_set_origin (l : list A) (d : dict) (k : string) (v : value) :
  dict_get (fold_left (fun d x => dict_set (key x) (val x) d) l d) k = Some v ->
  (exists x, In x l /\ key x = k /\ v = val x) \/ dict_get d k = Some v.
Proof.
  revert d. induction l as [| a l IH]; intros d Hg; simpl in Hg; [now right |].
  apply IH in Hg. destruct Hg as [(x & Hx & Hk & ->) | Hg].
  - left. exists x. split; [now right | now split].
  - destruct (string_dec k (key a)) as [-> | Hk].
    + rewrite dict_get_set_same in Hg. injection Hg as <-.
      left. exists a. split; [now left | now split].
    + rewrite dict_get_set_other in Hg by assumption. now right.
Qed.

Lemma last_with_key (l : list A) (k : string) :
  In k (map key l) ->
  exists pre x post,
    l = pre ++ x :: post /\ key x = k /\ ~ In k (map key post).
Proof.
  induction l as [| a l IH]; intros Hin; [destruct Hin |].
  destruct (in_dec string_dec k (map key l)) as [Hl | Hl].
  - destruct (IH Hl) as (pre & x & post & -> & Hk & Hn).
    exists (a :: pre), x, post. now repeat split.
  - destruct Hin as [Ha | Hin]; [| contradiction].
    exists [], a, l. now repeat split.
Qed.

End FoldSetKeys.

(** X3.  When the call is reached, the [symbols] of the payload have a
    features entry for a symbol exactly when it is the symbol of a
    candidate; a candidate without a symbol counts under ["UNKNOWN"]. *)
Theorem payload_symbols_are_input (E : externals) (features_list : list item)
    (cfg run_id ctx previous_decisions decision_history : value) (p : prepared)
    (s : string) :
  prepare E features_list cfg run_id ctx previous_decisions decision_history = Ok p ->
  ((exists f, payload_features (filter_input p) s = Some f)
   <-> In s (symbols_of features_list)) /\
  (forall it, In it features_list -> item_symbol it = None ->
     exists f, payload_features (filter_input p) "UNKNOWN" = Some f).
Proof.
  intros Hp. apply prepare_inv in Hp.
  destruct Hp as (llm_cfg_raw & llm_cfg & system_prompt & symbols & total
                  & total_assets & available_cash & hist & payload
                  & _ & _ & _ & _ & Hloop & _ & _ & _ & Hfi & _).
  apply symbols_loop_spec in Hloop. destruct Hloop as [Hsym _].
  assert (Hin : forall k, In k (symbols_of features_list) ->
            exists f, payload_features (filter_input p) k = Some f).
  { intros k Hk.
    destruct (last_with_key item symbol_of features_list k Hk)
      as (pre & x & post & Hsplit & Hkey & Hlast).
    rewrite Hfi, payload_features_filter_input, Hsym, Hsplit, <- Hkey.
    rewrite (fold_set_last item symbol_of symbol_entry pre post x [])
      by (now rewrite Hkey).
    simpl. eauto. }
  split; [split |].
  - intros [f Hf]. rewrite Hfi, payload_features_filter_input in Hf.
    destruct (dict_get symbols s) as [entry |] eqn:Hg; [| discriminate Hf].
    rewrite Hsym in Hg. apply fold_set_origin in Hg.
    destruct Hg as [(x & Hx & Hk & _) | Hg]; [| discriminate Hg].
    rewrite <- Hk. now apply in_map.
  - apply Hin.
  - intros it Hit Hnone. apply Hin.
    replace "UNKNOWN"%string with (symbol_of it)
      by (unfold symbol_of; now rewrite Hnone).
    now apply in_map.
Qed.

(** Witness of X3: GOOGL is a candidate and has its entry. *)
Lemma payload_symbols_are_input_witness :
  exists p,
    prepare (world refusing_service) three_candidates minimal_cfg VNone VNone
      VNone VNone = Ok p /\
    In "GOOGL"%string (symbols_of three_candidates) /\
    exists f, payload_features (filter_input p) "GOOGL" = Some f.
Proof.
  destruct (prepare (world refusing_service) three_candidates minimal_cfg VNone
              VNone VNone VNone) as [p | e] eqn:Hp;
    [| vm_compute in Hp; discriminate Hp].
  exists p. split; [reflexivity |].
  assert (Hin : In "GOOGL"%string (symbols_of three_candidates))
    by (simpl; tauto).
  split; [exact Hin |].
  exact (proj2 (proj1 (payload_symbols_are_input (world refusing_service)
                         three_candidates minimal_cfg VNone VNone VNone VNone p
                         "GOOGL" Hp)) Hin).
Defined.

(** ** The history in the payload *)

(** [payload["history"]] *)
Definition payload_history (payload : value) : option value :=
  match payload with
  | VDict d => dict_get d "history"
  | _ => None
  end.

(** A candidate whose position state, when present, is a mapping with a
    numeric value. *)
Definition positioned (features : value) : bool :=
  match features with
  | VDict f =>
      section_ok f "position_state"
      && number_ok (section f "position_state") "current_position_value"
  | _ => false
  end.

(** A long-term history that is one record for AAA. *)
Definition long_term_history : value :=
  VDict [("AAA", VList [VDict purchase; VDict placeholder_hold])].

(** X5.  A long-term [decision_history] that is true takes precedence:
    it is the [history] of the payload as it is, and [previous_decisions]
    has no part in the request, whatever it is. *)
Theorem decision_history_precedence (E : externals) (features_list : list item)
    (cfg run_id ctx previous_decisions decision_history : value) (p : prepared) :
  prepare E features_list cfg run_id ctx previous_decisions decision_history = Ok p ->
  truthy decision_history = true ->
  payload_history (filter_input p) = Some decision_history /\
  forall other_decisions,
    prepare E features_list cfg run_id ctx other_decisions decision_history = Ok p.
Proof.
  intros Hp Ht.
  assert (Hsame : forall other,
            history_of features_list other decision_history
            = history_of features_list previous_decisions decision_history).
  { intros other. unfold history_of. now rewrite Ht. }
  split.
  - apply prepare_inv in Hp.
    destruct Hp as (? & ? & ? & ? & ? & ? & ? & hist & ?
                    & _ & _ & _ & _ & _ & _ & Hh & _ & Hfi & _).
    rewrite Hfi. simpl. f_equal. unfold history_of in Hh. rewrite Ht in Hh.
    step Hh n. now injection Hh as <-.
  - intros other. unfold prepare in *. now rewrite Hsame.
Qed.

(** Witness of X5: the long-term history is sent; yesterday's decisions
    make no difference. *)
Lemma decision_history_precedence_witness :
  exists p,
    prepare (world refusing_service) three_candidates minimal_cfg VNone VNone
      (VDict yesterday) long_term_history = Ok p /\
    truthy long_term_history = true /\
    payload_history (filter_input p) = Some long_term_history /\
    prepare (world refusing_service) three_candidates minimal_cfg VNone VNone
      VNone long_term_history = Ok p.
Proof.
  destruct (prepare (world refusing_service) three_candidates minimal_cfg VNone
              VNone (VDict yesterday) long_term_history) as [p | e] eqn:Hp;
    [| vm_compute in Hp; discriminate Hp].
  exists p. split; [reflexivity |]. split; [reflexivity |].
  destruct (decision_history_precedence (world refusing_service)
              three_candidates minimal_cfg VNone VNone (VDict yesterday)
              long_term_history p Hp eq_refl) as [Hh Hany].
  split; [exact Hh | apply Hany].
Defined.

Lemma symbols_loop_positioned (features_list : list item) (symbols : dict)
    (total : Q) (out : dict * Q) :
  symbols_loop features_list symbols total = Ok out ->
  forall it, In it features_list -> positioned (features_of it) = true.
Proof.
  revert symbols total.
  induction features_list as [| a rest IH]; intros symbols total H it Hin;
    [destruct Hin |].
  simpl in H. step H filtered. step H v. step H t.
  destruct Hin as [<- | Hin]; [| eapply IH; eassumption].
  unfold filter_features in Hfiltered.
  destruct (features_of a) as [| | | | | f | |]; try discriminate Hfiltered.
  injection Hfiltered as <-.
  unfold position_value_of in Hv. simpl in Hv.
  unfold dict_get_default in Hv at 1.
  fold (without_fundamentals f) in Hv.
  rewrite without_fundamentals_get in Hv by discriminate.
  fold (dict_get_default f "position_state" (VDict [])) in Hv.
  unfold positioned, section_ok, section, number_ok.
  destruct (dict_get_default f "position_state" (VDict []))
    as [| | | | | ps | |]; try discriminate Hv.
  simpl in Hv. injection Hv as <-. simpl.
  unfold py_add_num, dict_get_default in Ht. unfold is_number.
  destruct (dict_get ps "current_position_value") as [x |]; [| reflexivity].
  now destruct (num_of x).
Qed.

Lemma hold_repair_positioned (cfd : dict) (s : string) (target : value) :
  (forall f, dict_get cfd s = Some f -> positioned f = true) ->
  exists t, hold_repair (VDict cfd) s target = Ok t.
Proof.
  intros Hpos. unfold hold_repair.
  destruct (truthy (VDict cfd)); [| eauto].
  cbn [py_contains bind]. unfold dict_has.
  destruct (dict_get cfd s) as [f |] eqn:Hg; [| eauto].
  cbn [py_index bind]. rewrite Hg. cbn [bind].
  specialize (Hpos f eq_refl). unfold positioned in Hpos.
  destruct f as [| | | | | fd | |]; try discriminate Hpos.
  apply andb_true_iff in Hpos. destruct Hpos as [Hps Hv].
  cbn [py_get bind]. rewrite (section_ok_inv _ _ Hps). cbn [py_get bind].
  assert (Hn := number_ok_default _ _ (VNum 0) Hv eq_refl).
  unfold py_gt_num. unfold is_number in Hn.
  destruct (num_of (dict_get_default (section fd "position_state")
                      "current_position_value" (VNum 0)));
    [| discriminate Hn].
  cbn [bind]. eauto.
Qed.

Lemma history_loop_positioned (date : value) (cfd ds h : dict) :
  (forall s f, dict_get cfd s = Some f -> positioned f = true) ->
  snd (history_loop date (VDict cfd) ds h) = None.
Proof.
  intros Hpos. revert h.
  induction ds as [| [k v] ds IH]; intros h; [reflexivity |].
  simpl. destruct v; try apply IH.
  assert (Hb : exists r, build_record date (VDict cfd) k d = Ok r).
  { unfold build_record.
    destruct (py_eq_str (dict_get_default d "action" (VStr "hold")) "hold"
              && py_eq_num (dict_get_default d "target_cash_amount" (VNum 0)) 0
              && py_eq_num (dict_get_default d "cash_change" (VNum 0)) 0).
    - destruct (hold_repair_positioned cfd k
                  (dict_get_default d "target_cash_amount" (VNum 0))
                  (Hpos k)) as [t Ht].
      rewrite Ht. cbn [bind]. eauto.
    - cbn [bind]. eauto. }
  destruct Hb as [r Hr]. rewrite Hr. apply IH.
Qed.

(** X6.  Reached through the function, without a long-term history, the
    reconstruction of the history never stops early: the current features
    it is given have passed the loop of lines 194-211, so no record raises,
    and every decision of yesterday that is a mapping has its record in the
    payload. *)
Theorem history_complete_in_payload (E : externals) (features_list : list item)
    (cfg run_id ctx decision_history : value) (items : dict) (p : prepared) :
  prepare E features_list cfg run_id ctx (VDict items) decision_history = Ok p ->
  truthy decision_history = false ->
  snd (build_history_try (VDict items) (VDict (current_features_of features_list)))
    = None /\
  exists h,
    payload_history (filter_input p) = Some (VDict h) /\
    (dict_wf items ->
     forall s d, s <> "__meta__"%string -> dict_get items s = Some (VDict d) ->
       exists r, dict_get h s = Some (VList [r])).
Proof.
  intros Hp Ht. apply prepare_inv in Hp.
  destruct Hp as (? & ? & ? & symbols & total & ? & ? & hist & ?
                  & _ & _ & _ & _ & Hloop & _ & Hh & _ & Hfi & _).
  assert (Hpos : forall s f,
            dict_get (current_features_of features_list) s = Some f ->
            positioned f = true).
  { intros s f Hg. unfold current_features_of in Hg.
    apply (fold_set_origin item symbol_of features_of) in Hg.
    destruct Hg as [(it0 & Hit0 & _ & ->) | Hg]; [| discriminate Hg].
    eapply symbols_loop_positioned; eassumption. }
  assert (Hnone : snd (history_loop (history_date_of items)
                         (VDict (current_features_of features_list))
                         (decisions_of items) []) = None)
    by now apply history_loop_positioned.
  split; [exact Hnone |].
  unfold history_of in Hh. rewrite Ht in Hh. injection Hh as <-.
  eexists. split; [rewrite Hfi; reflexivity |].
  intros Hwf s d Hs Hg.
  assert (Hne : items <> []) by (intros ->; discriminate Hg).
  rewrite build_history_nonempty by assumption.
  destruct (history_loop_complete (history_date_of items)
              (VDict (current_features_of features_list)) (decisions_of items)
              [] s d (decisions_of_wf items Hwf)) as (r & _ & Hr);
    [now rewrite decisions_of_get | exact Hnone |].
  eauto.
Qed.

(** Witness of X6: yesterday's decisions with the three candidates. *)
Lemma history_complete_in_payload_witness :
  exists p h r,
    prepare (world refusing_service) three_candidates minimal_cfg VNone VNone
      (VDict yesterday) VNone = Ok p /\
    truthy VNone = false /\
    dict_wf yesterday /\
    dict_get yesterday "BBB" = Some (VDict purchase) /\
    payload_history (filter_input p) = Some (VDict h) /\
    dict_get h "BBB" = Some (VList [r]).
Proof.
  destruct (prepare (world refusing_service) three_candidates minimal_cfg VNone
              VNone (VDict yesterday) VNone) as [p | e] eqn:Hp;
    [| vm_compute in Hp; discriminate Hp].
  assert (Hwf : dict_wf yesterday).
  { unfold dict_wf. simpl. repeat constructor; simpl; intuition discriminate. }
  destruct (history_complete_in_payload (world refusing_service)
              three_candidates minimal_cfg VNone VNone VNone yesterday p Hp
              eq_refl) as (_ & h & Hh & Hall).
  destruct (Hall Hwf "BBB"%string purchase) as [r Hr];
    [discriminate | reflexivity |].
  exists p, h, r. repeat split; assumption.
Defined.

(** ** The records of the reconstructed history *)

(** The record built from a decision, with [target] as its amount. *)
Definition record_of (date : value) (decision : dict) (target : value) : value :=
  VDict [ ("date", date);
          ("action", recorded_action decision);
          ("cash_change", recorded_cash_change decision);
          ("target_cash_amount", target);
          ("reasons", dict_get_default decision "reasons" (VList []));
          ("confidence", dict_get_default decision "confidence" (VNum (1 # 2))) ].

Lemma history_loop_origin (date cf : value) (ds h : dict) (s : string) (x : value) :
  dict_get (fst (history_loop date cf ds h)) s = Some x ->
  dict_get h s = Some x \/
  exists d r, In (s, VDict d) ds /\ build_record date cf s d = Ok r /\ x = VList [r].
Proof.
  revert h. induction ds as [| [k v] ds IH]; intros h Hx; [now left |].
  simpl in Hx.
  assert (Htail : forall h',
            dict_get (fst (history_loop date cf ds h')) s = Some x ->
            dict_get h' s = Some x \/
            exists d r, In (s, VDict d) ((k, v) :: ds)
                        /\ build_record date cf s d = Ok r /\ x = VList [r]).
  { intros h' H'. destruct (IH h' H') as [Hh | (d & r & Hin & Hb & Hr)];
      [now left |].
    right. exists d, r. split; [now right | now split]. }
  destruct v; try (now apply Htail).
  destruct (build_record date cf k d) as [r | e] eqn:Hb; [| now left].
  destruct (Htail _ Hx) as [Hh | Hright]; [| now right].
  destruct (string_dec s k) as [-> | Hk].
  - rewrite dict_get_set_same in Hh. injection Hh as <-.
    right. exists d, r. split; [now left | now split].
  - rewrite dict_get_set_other in Hh by assumption. now left.
Qed.

Lemma hold_repair_outcome (cf : value) (s : string) (target t : value) :
  hold_repair cf s target = Ok t ->
  t = target \/ exists q, num_of t = Some q /\ (0 < q)%Q.
Proof.
  unfold hold_repair. intros H.
  destruct (truthy cf); [| injection H as <-; now left].
  step H present. destruct present; [| injection H as <-; now left].
  step H features. step H position_state. step H current_pos. step H above.
  injection H as <-. destruct above; [| now left].
  right. unfold py_gt_num in Habove.
  destruct (num_of current_pos) as [q |]; [| discriminate Habove].
  injection Habove as Hq. exists q. split; [reflexivity |].
  unfold Qlt_bool in Hq. apply negb_true_iff in Hq.
  apply Qnot_le_lt. intros Hle. apply Qle_bool_iff in Hle. congruence.
Qed.

Lemma decisions_of_in (items : dict) (s : string) (v : value) :
  In (s, v) (decisions_of items) -> In (s, v) items /\ s <> "__meta__"%string.
Proof.
  unfold decisions_of. intros H. apply filter_In in H. destruct H as [Hin Hs].
  split; [exact Hin |]. simpl in Hs. apply negb_true_iff in Hs.
  now apply String.eqb_neq.
Qed.

(** X7.  Whatever it is given, what the reconstruction returns under a
    symbol is a list of one record, built from an entry of the prior
    decisions that is a mapping and is not ["__meta__"]: the record has the
    six fields, with the date of ["__meta__"] ([None] without one), the
    action, cash change, reasons and confidence of the decision or their
    defaults, and as amount the recorded one, or for a hold with zero
    amount and zero cash change a positive number. *)
Theorem history_record_shape (previous_decisions current_features : value)
    (s : string) (x : value) :
  dict_get (_build_history_from_previous_decisions previous_decisions
              current_features) s = Some x ->
  exists items d t,
    previous_decisions = VDict items /\
    In (s, VDict d) items /\
    s <> "__meta__"%string /\
    x = VList [record_of (history_date_of items) d t] /\
    (t = recorded_target d
     \/ (zero_hold d = true /\ exists q, num_of t = Some q /\ (0 < q)%Q)).
Proof.
  unfold _build_history_from_previous_decisions. intros Hx.
  destruct (truthy previous_decisions); [| discriminate Hx].
  destruct previous_decisions as [| | | | | items | |]; try discriminate Hx.
  simpl in Hx. apply history_loop_origin in Hx.
  destruct Hx as [Hx | (d & r & Hin & Hb & ->)]; [discriminate Hx |].
  apply decisions_of_in in Hin. destruct Hin as [Hin Hs].
  apply build_record_inv in Hb. destruct Hb as (t & Ht & ->).
  exists items, d, t. repeat split; try assumption.
  destruct (zero_hold d).
  - apply hold_repair_outcome in Ht. destruct Ht as [-> | Hq]; [now left |].
    right. now split.
  - injection Ht as <-. now left.
Qed.

(** Witness of X7: the record of AAA, repaired to 1500. *)
Lemma history_record_shape_witness :
  dict_get (_build_history_from_previous_decisions (VDict yesterday)
              features_with_position) "AAA"
    = Some (VList [record_of (VStr "2024-03-14") placeholder_hold (VNum 1500)]) /\
  exists items d t,
    VDict yesterday = VDict items /\
    In ("AAA"%string, VDict d) items /\
    "AAA"%string <> "__meta__"%string /\
    VList [record_of (VStr "2024-03-14") placeholder_hold (VNum 1500)]
      = VList [record_of (history_date_of items) d t] /\
    (t = recorded_target d
     \/ (zero_hold d = true /\ exists q, num_of t = Some q /\ (0 < q)%Q)).
Proof.
  split; [reflexivity |].
  exact (history_record_shape (VDict yesterday) features_with_position "AAA"
           (VList [record_of (VStr "2024-03-14") placeholder_hold (VNum 1500)])
           eq_refl).
Defined.

Lemma build_record_plain (date cf : value) (s : string) (d : dict) :
  zero_hold d = false ->
  build_record date cf s d = Ok (record_of date d (recorded_target d)).
Proof.
  intros Hz. unfold build_record.
  fold (recorded_action d) (recorded_cash_change d) (recorded_target d).
  fold (zero_hold d). now rewrite Hz.
Qed.

Lemma history_loop_plain (date cf cf' : value) (ds h : dict) :
  (forall s d, In (s, VDict d) ds -> zero_hold d = false) ->
  history_loop date cf ds h = history_loop date cf' ds h /\
  snd (history_loop date cf ds h) = None.
Proof.
  revert h. induction ds as [| [k v] ds IH]; intros h Hplain; [now split |].
  assert (Htail : forall s d, In (s, VDict d) ds -> zero_hold d = false).
  { intros s d Hin. apply (Hplain s d). now right. }
  simpl. destruct v; try (now apply IH).
  rewrite !build_record_plain by (apply (Hplain k d); now left).
  now apply IH.
Qed.

(** X8.  The current features are consulted for holds with zero amount and
    zero cash change only: when no prior decision is one (the ["__meta__"]
    entry is no decision and may be anything), the reconstruction gives
    the same history whatever the current features are, raises nothing on
    the way, and every decision that is a mapping has its record with the
    recorded amount. *)
Theorem plain_decisions_ignore_features (items : dict)
    (current_features other_features : value) :
  (forall s d, s <> "__meta__"%string -> In (s, VDict d) items ->
     zero_hold d = false) ->
  _build_history_from_previous_decisions (VDict items) current_features
  = _build_history_from_previous_decisions (VDict items) other_features /\
  snd (build_history_try (VDict items) current_features) = None /\
  (dict_wf items ->
   forall s d, s <> "__meta__"%string -> dict_get items s = Some (VDict d) ->
     dict_get (_build_history_from_previous_decisions (VDict items)
                 current_features) s
     = Some (VList [record_of (history_date_of items) d (recorded_target d)])).
Proof.
  intros Hplain.
  assert (Hdec : forall s d, In (s, VDict d) (decisions_of items) ->
                             zero_hold d = false).
  { intros s d Hin. apply decisions_of_in in Hin. destruct Hin as [Hin Hs].
    now apply (Hplain s d). }
  destruct (history_loop_plain (history_date_of items) current_features
              other_features (decisions_of items) [] Hdec) as [Hsame Hnone].
  split; [| split].
  - unfold _build_history_from_previous_decisions, build_history_try.
    now rewrite Hsame.
  - exact Hnone.
  - intros Hwf s d Hs Hg.
    assert (Hne : items <> []) by (intros ->; discriminate Hg).
    rewrite build_history_nonempty by assumption.
    destruct (history_loop_complete (history_date_of items) current_features
                (decisions_of items) [] s d (decisions_of_wf items Hwf))
      as (r & Hb & Hr); [now rewrite decisions_of_get | exact Hnone |].
    rewrite Hr. rewrite build_record_plain in Hb.
    + now injection Hb as <-.
    + apply (Hplain s d Hs).
      clear - Hg. induction items as [| [k v] items IH]; [discriminate Hg |].
      simpl in Hg. destruct (String.eqb s k) eqn:Hk.
      * apply String.eqb_eq in Hk. subst k. injection Hg as ->. now left.
      * right. now apply IH.
Qed.

(** Yesterday's decisions without the hold: the date and a purchase. *)
Definition dated_purchase : dict :=
  [ ("__meta__", VDict [("date", VStr "2024-03-14")]);
    ("BBB", VDict purchase) ].

(** Witness of X8: a dated purchase, with the value of AAA missing. *)
Lemma plain_decisions_ignore_features_witness :
  zero_hold [("date", VStr "2024-03-14")] = true /\
  zero_hold purchase = false /\
  _build_history_from_previous_decisions (VDict dated_purchase)
    features_with_null_position
  = _build_history_from_previous_decisions (VDict dated_purchase) VNone /\
  dict_get (_build_history_from_previous_decisions (VDict dated_purchase)
              features_with_null_position) "BBB"
  = Some (VList [record_of (VStr "2024-03-14") purchase (VNum 500)]).
Proof.
  assert (Hplain : forall s d, s <> "__meta__"%string ->
                     In (s, VDict d) dated_purchase -> zero_hold d = false).
  { intros s d Hs [H | [H | []]].
    - injection H as <- _. now contradiction Hs.
    - injection H as _ <-. reflexivity. }
  destruct (plain_decisions_ignore_features dated_purchase
              features_with_null_position VNone Hplain) as (Hsame & _ & Hrec).
  split; [reflexivity |]. split; [reflexivity |]. split; [exact Hsame |].
  apply Hrec.
  - unfold dict_wf. simpl. repeat constructor; simpl; intuition discriminate.
  - discriminate.
  - reflexivity.
Defined.

(** ** The configuration of the call *)

(** [agents.dual_agent.fundamental_filter] of a configuration. *)
Definition filter_cfg_of (c : dict) : dict :=
  section (section (section c "agents") "dual_agent") "fundamental_filter".

(** [cache.mode] of a configuration, ["full"] when absent. *)
Definition cache_mode_of (c : dict) : value :=
  dict_get_default (section c "cache") "mode" (VStr "full").

(** The first true value of a list, [last] when there is none. *)
Fixpoint first_true (candidates : list value) (last : value) : value :=
  match candidates with
  | [] => last
  | v :: rest => if truthy v then v else first_true rest last
  end.

(** The models a configuration offers, in the order of line 158. *)
Definition offered_models (c : dict) : list value :=
  [ dict_get_default (filter_cfg_of c) "model" VNone;
    dict_get_default (section c "llm") "fundamental_filter_model" VNone;
    dict_get_default (section c "llm") "model" VNone ].

(** A configuration with a cache mode in capitals and two models. *)
Definition write_only_cfg : value :=
  VDict [ ("llm", VDict [ ("model", VStr "gpt-4o");
                          ("fundamental_filter_model", VStr "");
                          ("analyzer_model", VStr "gpt-4.1") ]);
          ("cache", VDict [("mode", VStr "LLM_Write_Only")]) ].

(** What lines 140-188 have computed when the call is reached. *)
Lemma prepare_config_inv (E : externals) (features_list : list item)
    (cfg run_id ctx previous_decisions decision_history : value) (p : prepared) :
  prepare E features_list cfg run_id ctx previous_decisions decision_history = Ok p ->
  exists c,
    cfg = VDict c /\
    build_llm_config E (VDict c) (dict_get_default c "llm" (VDict []))
      = Ok (req_config (the_request p)) /\
    load_system_prompt E (VDict c) = Ok (req_system_prompt (the_request p)).
Proof.
  unfold prepare. intros H. step H llm_cfg_raw.
  destruct (truthy llm_cfg_raw) eqn:Hllm; simpl in H; [| discriminate H].
  step H llm_cfg. step H accepted. step H system_prompt. step H filled.
  destruct filled as [symbols total].
  step H snapshot. destruct snapshot as [total_assets available_cash].
  step H hist. step H rounded. step H payload. step H client.
  injection H as <-. simpl.
  unfold py_or in Hllm_cfg_raw.
  destruct (truthy cfg) eqn:Hcfg.
  - destruct cfg as [| | | | | c | |]; try discriminate Hllm_cfg_raw.
    exists c. injection Hllm_cfg_raw as <-. now repeat split.
  - injection Hllm_cfg_raw as <-. discriminate Hllm.
Qed.

Lemma py_get_ok_dict (v : value) (k : string) (default x : value) :
  py_get v k default = Ok x ->
  exists d, v = VDict d /\ x = dict_get_default d k default.
Proof.
  destruct v; try discriminate. intros H. injection H as <-. eauto.
Qed.

Lemma dict_section (d : dict) (k : string) (s : dict) :
  dict_get_default d k (VDict []) = VDict s -> section d k = s.
Proof. unfold section. now intros ->. Qed.

(** What lines 148-184 have computed when they raise nothing. *)
Lemma build_llm_config_inv (E : externals) (c : dict) (config : llm_config) :
  build_llm_config E (VDict c) (dict_get_default c "llm" (VDict [])) = Ok config ->
  dict_get_default c "llm" (VDict []) = VDict (section c "llm") /\
  select_model (VDict (filter_cfg_of c)) (VDict (section c "llm"))
    = Ok (first_true (offered_models c)
            (dict_get_default (section c "llm") "analyzer_model"
               (VStr "gpt-4o-mini"))) /\
  model config
    = py_str E (first_true (offered_models c)
                  (dict_get_default (section c "llm") "analyzer_model"
                     (VStr "gpt-4o-mini"))) /\
  cache_read_enabled config
    = fst (cache_flags (lower (py_str E (cache_mode_of c)))) /\
  cache_write_enabled config
    = snd (cache_flags (lower (py_str E (cache_mode_of c)))).
Proof.
  unfold build_llm_config. rewrite py_or_dict. intros H.
  cbn [py_get bind] in H.
  destruct (dict_get_default c "agents" (VDict [])) as [| | | | | a | |] eqn:Ha;
    try discriminate H.
  cbn [py_get bind] in H.
  destruct (dict_get_default a "dual_agent" (VDict [])) as [| | | | | da | |]
    eqn:Hda; try discriminate H.
  cbn [py_get bind] in H.
  destruct (dict_get_default c "cache" (VDict [])) as [| | | | | ch | |] eqn:Hch;
    try discriminate H.
  cbn [py_get bind] in H.
  destruct (dict_get_default c "llm" (VDict [])) as [| | | | | l | |] eqn:Hl;
    try discriminate H.
  cbn [py_get bind] in H.
  destruct (dict_get_default da "fundamental_filter" (VDict []))
    as [| | | | | fc | |] eqn:Hfc; try discriminate H.
  assert (Hsa := dict_section _ _ _ Ha).
  assert (Hsda : section a "dual_agent" = da) by now apply dict_section.
  assert (Hsfc : filter_cfg_of c = fc).
  { unfold filter_cfg_of. rewrite Hsa, Hsda. now apply dict_section. }
  assert (Hsl := dict_section _ _ _ Hl).
  assert (Hsc := dict_section _ _ _ Hch).
  assert (Hsel : select_model (VDict fc) (VDict l)
                 = Ok (first_true (offered_models c)
                         (dict_get_default l "analyzer_model"
                            (VStr "gpt-4o-mini")))).
  { unfold select_model, offered_models. rewrite Hsfc, Hsl.
    cbn [py_get bind first_true].
    destruct (truthy (dict_get_default fc "model" VNone)); [reflexivity |].
    destruct (truthy (dict_get_default l "fundamental_filter_model" VNone));
      [reflexivity |].
    now destruct (truthy (dict_get_default l "model" VNone)). }
  rewrite Hsel in H. cbn [bind] in H.
  repeat (match type of H with
          | bind ?m _ = Ok _ =>
              let x := fresh "x" in
              destruct m as [x |]; cbn [bind] in H; [| discriminate H]
          end).
  injection H as <-. cbn [model cache_read_enabled cache_write_enabled].
  unfold cache_mode_of. rewrite Hsl, Hsc, Hsfc.
  repeat split; try reflexivity; try exact Hsel.
  unfold offered_models. rewrite Hsfc, Hsl. reflexivity.
Qed.

(** The world of [world], with the prompt file of the default name. *)
Definition world_with_prompt : externals :=
  let W := world refusing_service in
  {| today := today W;
     fromisoformat_date := fromisoformat_date W;
     prompt_file := fun name =>
       if String.eqb name "fundamental_filter_v1.txt"
       then Some "You decide which stocks need fundamentals."%string
       else None;
     float_of_string := float_of_string W;
     int_of_string := int_of_string W;
     str_text := str_text W;
     builtin_text := builtin_text W;
     round_number := round_number W;
     set_iteration := set_iteration W;
     generate_json := generate_json W;
     llm_config_error := llm_config_error W;
     rounding_error := rounding_error W;
     client_error := client_error W |}.

Lemma cache_flags_table (x : string) :
  (fst (cache_flags x) = Some true <-> x = "full"%string) /\
  (snd (cache_flags x) = Some true
   <-> x = "full"%string \/ x = "llm_write_only"%string) /\
  (fst (cache_flags x) = Some false
   <-> x = "off"%string \/ x = "llm_write_only"%string) /\
  (snd (cache_flags x) = Some false <-> x = "off"%string) /\
  (fst (cache_flags x) = None <-> snd (cache_flags x) = None).
Proof.
  unfold cache_flags.
  destruct (String.eqb x "off") eqn:Hoff.
  { apply String.eqb_eq in Hoff. subst x. simpl.
    repeat split; intros; try discriminate; try tauto;
      intuition discriminate. }
  destruct (String.eqb x "llm_write_only") eqn:Hwo.
  { apply String.eqb_eq in Hwo. subst x. simpl.
    repeat split; intros; try discriminate; try tauto;
      intuition discriminate. }
  destruct (String.eqb x "full") eqn:Hfull.
  { apply String.eqb_eq in Hfull. subst x. simpl.
    repeat split; intros; try discriminate; try tauto;
      intuition discriminate. }
  apply String.eqb_neq in Hoff, Hwo, Hfull. simpl.
  repeat split; intros; try discriminate; try tauto;
    intuition congruence.
Qed.

(** X9.  The cache switches of the call follow [cache.mode], read without
    regard to case, ["full"] when absent: reading is on for ["full"] alone,
    writing is on for ["full"] and ["llm_write_only"], both are off for
    ["off"], and for any other text both are left unset together. *)
Theorem cache_switches (E : externals) (features_list : list item) (c : dict)
    (run_id ctx previous_decisions decision_history : value) (p : prepared)
    (mode : string) :
  prepare E features_list (VDict c) run_id ctx previous_decisions
    decision_history = Ok p ->
  cache_mode_of c = VStr mode ->
  (cache_read_enabled (req_config (the_request p)) = Some true
   <-> lower mode = "full"%string) /\
  (cache_write_enabled (req_config (the_request p)) = Some true
   <-> lower mode = "full"%string \/ lower mode = "llm_write_only"%string) /\
  (cache_read_enabled (req_config (the_request p)) = Some false
   <-> lower mode = "off"%string \/ lower mode = "llm_write_only"%string) /\
  (cache_write_enabled (req_config (the_request p)) = Some false
   <-> lower mode = "off"%string) /\
  (cache_read_enabled (req_config (the_request p)) = None
   <-> cache_write_enabled (req_config (the_request p)) = None).
Proof.
  intros Hp Hmode. apply prepare_config_inv in Hp.
  destruct Hp as (c0 & Hc & Hcfg & _). injection Hc as <-.
  apply build_llm_config_inv in Hcfg.
  destruct Hcfg as (_ & _ & _ & -> & ->). rewrite Hmode.
  apply cache_flags_table.
Qed.

(** Witness of X9: the mode [LLM_Write_Only] writes and does not read. *)
Lemma cache_switches_witness :
  exists p,
    prepare (world refusing_service) three_candidates write_only_cfg VNone
      VNone VNone VNone = Ok p /\
    lower "LLM_Write_Only" = "llm_write_only"%string /\
    cache_read_enabled (req_config (the_request p)) = Some false /\
    cache_write_enabled (req_config (the_request p)) = Some true.
Proof.
  destruct (prepare (world refusing_service) three_candidates write_only_cfg
              VNone VNone VNone VNone) as [p | e] eqn:Hp;
    [| vm_compute in Hp; discriminate Hp].
  exists p. split; [reflexivity |]. split; [reflexivity |].
  destruct (cache_switches (world refusing_service) three_candidates _ VNone
              VNone VNone VNone p "LLM_Write_Only" Hp eq_refl)
    as (_ & Hw & Hr & _).
  split; [apply Hr | apply Hw]; now right.
Defined.

Lemma first_true_none (l : list value) (last : value) :
  forallb (fun v => negb (truthy v)) l = true -> first_true l last = last.
Proof.
  induction l as [| v l IH]; intros Hl; [reflexivity |].
  simpl in Hl. apply andb_true_iff in Hl. destruct Hl as [Hv Hl].
  apply negb_true_iff in Hv. simpl. rewrite Hv. now apply IH.
Qed.

(** X10.  The model of the call is the text of the first true value among
    the [model] of the filter sub-configuration, the
    [fundamental_filter_model] and the [model] of the llm section; when
    none is true it is the [analyzer_model] of the llm section as it is,
    empty or not, and ["gpt-4o-mini"] only when that key is absent. *)
Theorem model_precedence (E : externals) (features_list : list item) (c : dict)
    (run_id ctx previous_decisions decision_history : value) (p : prepared) :
  prepare E features_list (VDict c) run_id ctx previous_decisions
    decision_history = Ok p ->
  model (req_config (the_request p))
    = py_str E (first_true (offered_models c)
                  (dict_get_default (section c "llm") "analyzer_model"
                     (VStr "gpt-4o-mini"))) /\
  (forallb (fun v => negb (truthy v)) (offered_models c) = true ->
   (forall v, dict_get (section c "llm") "analyzer_model" = Some v ->
      model (req_config (the_request p)) = py_str E v) /\
   (dict_get (section c "llm") "analyzer_model" = None ->
      model (req_config (the_request p)) = "gpt-4o-mini"%string)).
Proof.
  intros Hp. apply prepare_config_inv in Hp.
  destruct Hp as (c0 & Hc & Hcfg & _). injection Hc as <-.
  apply build_llm_config_inv in Hcfg. destruct Hcfg as (_ & _ & Hm & _).
  split; [exact Hm |].
  intros Hnone. rewrite Hm.
  rewrite first_true_none by assumption. unfold dict_get_default. split.
  - intros v Hv. now rewrite Hv.
  - intros Hv. now rewrite Hv.
Qed.

(** Witness of X10: an empty [fundamental_filter_model] is passed over and
    the [model] of the llm section is taken, before [analyzer_model]. *)
Lemma model_precedence_witness :
  exists p,
    prepare (world refusing_service) three_candidates write_only_cfg VNone
      VNone VNone VNone = Ok p /\
    model (req_config (the_request p)) = "gpt-4o"%string.
Proof.
  destruct (prepare (world refusing_service) three_candidates write_only_cfg
              VNone VNone VNone VNone) as [p | e] eqn:Hp;
    [| vm_compute in Hp; discriminate Hp].
  exists p. split; [reflexivity |].
  destruct (model_precedence (world refusing_service) three_candidates _ VNone
              VNone VNone VNone p Hp) as [Hm _].
  rewrite Hm. reflexivity.
Defined.

(** X11.  The system prompt of the call is the content of the prompt file
    named by [prompt] in the filter sub-configuration,
    ["fundamental_filter_v1.txt"] when absent, and the built-in text when
    that file cannot be read; the name is a string whenever the call is
    reached. *)
Theorem system_prompt_source (E : externals) (features_list : list item)
    (c : dict) (run_id ctx previous_decisions decision_history : value)
    (p : prepared) :
  prepare E features_list (VDict c) run_id ctx previous_decisions
    decision_history = Ok p ->
  exists name,
    dict_get_default (filter_cfg_of c) "prompt" (VStr "fundamental_filter_v1.txt")
      = VStr name /\
    req_system_prompt (the_request p)
      = match prompt_file E name with
        | Some text => text
        | None => default_prompt
        end.
Proof.
  intros Hp. apply prepare_config_inv in Hp.
  destruct Hp as (c0 & Hc & _ & Hprompt). injection Hc as <-.
  unfold load_system_prompt in Hprompt. rewrite py_or_dict in Hprompt.
  cbn [py_get bind] in Hprompt.
  destruct (dict_get_default c "agents" (VDict [])) as [| | | | | a | |] eqn:Ha;
    try discriminate Hprompt.
  cbn [py_get bind] in Hprompt.
  destruct (dict_get_default a "dual_agent" (VDict [])) as [| | | | | da | |]
    eqn:Hda; try discriminate Hprompt.
  cbn [py_get bind] in Hprompt.
  destruct (dict_get_default da "fundamental_filter" (VDict []))
    as [| | | | | fc | |] eqn:Hfc; try discriminate Hprompt.
  cbn [py_get bind] in Hprompt.
  assert (Hsfc : filter_cfg_of c = fc).
  { unfold filter_cfg_of. rewrite (dict_section _ _ _ Ha).
    rewrite (dict_section _ _ _ Hda). now apply dict_section. }
  rewrite Hsfc. unfold _load_prompt in Hprompt.
  destruct (dict_get_default fc "prompt" (VStr "fundamental_filter_v1.txt"))
    as [| | | name | | | |]; try discriminate Hprompt.
  exists name. split; [reflexivity |]. now injection Hprompt as <-.
Qed.

(** Witness of X11: with the default file present its content is the
    prompt; without it the built-in text is. *)
Lemma system_prompt_source_witness :
  exists p q,
    prepare world_with_prompt three_candidates minimal_cfg VNone VNone VNone
      VNone = Ok p /\
    req_system_prompt (the_request p)
      = "You decide which stocks need fundamentals."%string /\
    prepare (world refusing_service) three_candidates minimal_cfg VNone VNone
      VNone VNone = Ok q /\
    req_system_prompt (the_request q) = default_prompt.
Proof.
  destruct (prepare world_with_prompt three_candidates minimal_cfg VNone VNone
              VNone VNone) as [p | e] eqn:Hp;
    [| vm_compute in Hp; discriminate Hp].
  destruct (prepare (world refusing_service) three_candidates minimal_cfg VNone
              VNone VNone VNone) as [q | e] eqn:Hq;
    [| vm_compute in Hq; discriminate Hq].
  exists p, q. split; [reflexivity |].
  destruct (system_prompt_source world_with_prompt three_candidates _ VNone
              VNone VNone VNone p Hp) as (name & Hname & Hsp).
  destruct (system_prompt_source (world refusing_service) three_candidates _
              VNone VNone VNone VNone q Hq) as (name' & Hname' & Hsq).
  vm_compute in Hname. injection Hname as <-.
  vm_compute in Hname'. injection Hname' as <-.
  split; [exact Hsp |]. split; [reflexivity | exact Hsq].
Defined.

(** ** More on the trade date *)

(** A market data section on which [in] raises: neither a mapping, nor a
    list, nor a string. *)
Definition unreadable (market_data : value) : bool :=
  match market_data with
  | VDict _ => false
  | VList _ => false
  | VStr _ => false
  | _ => true
  end.

(** A candidate whose market data is null. *)
Definition blank_candidate : item :=
  candidate "AAPL" [("market_data", VNone)].

(** X12.  With at least one candidate the date given to the call is never
    a false value ([None], an empty string): whatever the features and
    [ctx] hold, a date that is found false is replaced by the date of the
    clock. *)
Theorem trade_date_is_true (E : externals) (features_list : list item)
    (ctx : value) :
  features_list <> [] ->
  today E <> ""%string ->
  truthy (resolve_trade_date E features_list ctx) = true.
Proof.
  intros Hne Htoday.
  assert (Hclock : truthy (VStr (today E)) = true).
  { simpl. apply negb_true_iff. now apply String.eqb_neq. }
  unfold resolve_trade_date, resolve_date_try.
  destruct features_list as [| it rest]; [contradiction |].
  destruct (scan_market_data E (it :: rest)) as [found |]; [| exact Hclock].
  cbn [bind].
  destruct (date_from_ctx ctx match found with Some d => d | None => VNone end)
    as [trade_date |]; [| exact Hclock].
  cbn [bind]. destruct (truthy trade_date) eqn:Ht; simpl; assumption.
Qed.

(** Witness of X12: an empty date in the market data and in [ctx]. *)
Lemma trade_date_is_true_witness :
  [candidate "AAPL" [("market_data", VDict [("date", VStr "")])]] <> [] /\
  today (world refusing_service) <> ""%string /\
  resolve_trade_date (world refusing_service)
    [candidate "AAPL" [("market_data", VDict [("date", VStr "")])]]
    (VDict [("date", VStr "")]) = VStr "2026-01-15" /\
  truthy (resolve_trade_date (world refusing_service)
            [candidate "AAPL" [("market_data", VDict [("date", VStr "")])]]
            (VDict [("date", VStr "")])) = true.
Proof.
  assert (Hne : [candidate "AAPL" [("market_data", VDict [("date", VStr "")])]]
                <> []) by discriminate.
  assert (Hclock : today (world refusing_service) <> ""%string) by discriminate.
  split; [exact Hne |]. split; [exact Hclock |]. split; [reflexivity |].
  exact (trade_date_is_true (world refusing_service) _
           (VDict [("date", VStr "")]) Hne Hclock).
Defined.

(** X13.  A market data section that is [None], a number, a boolean or an
    object makes [in] raise; the [except] of line 293 then gives the date
    of the clock, whatever date [ctx] or a later candidate carries.  (The
    candidates before it have market data without a date and without a
    timestamp string.) *)
Theorem unreadable_market_data_gives_today (E : externals)
    (pre post : list item) (it : item) (f : dict) (market_data ctx : value) :
  forallb undated pre = true ->
  features_of it = VDict f ->
  dict_get f "market_data" = Some market_data ->
  unreadable market_data = true ->
  resolve_trade_date E (pre ++ it :: post) ctx = VStr (today E).
Proof.
  intros Hpre Hf Hmd Hbad.
  unfold resolve_trade_date, resolve_date_try.
  assert (Hscan : exists e, scan_market_data E (pre ++ it :: post) = Raise e).
  { rewrite scan_undated_prefix by assumption. simpl. rewrite Hf.
    cbn [py_get bind]. unfold dict_get_default. rewrite Hmd.
    destruct market_data; try discriminate Hbad; simpl; eauto. }
  destruct Hscan as [e He].
  destruct (pre ++ it :: post) eqn:Hl; [now destruct pre |].
  now rewrite He.
Qed.

(** Witness of X13: null market data first, a dated candidate second, a
    date in [ctx]; the date is the one of the clock. *)
Lemma unreadable_market_data_gives_today_witness :
  forallb undated [] = true /\
  features_of blank_candidate = VDict [("market_data", VNone)] /\
  unreadable VNone = true /\
  resolve_trade_date (world refusing_service)
    [blank_candidate; dated_candidate] dated_ctx = VStr "2026-01-15".
Proof.
  repeat (split; [reflexivity |]).
  exact (unreadable_market_data_gives_today (world refusing_service) []
           [dated_candidate] blank_candidate [("market_data", VNone)] VNone
           dated_ctx eq_refl eq_refl eq_refl eq_refl).
Defined.

(** ** The text of the error fallback *)

Lemma substring_whole (n : nat) (s : string) :
  (String.length s <= n)%nat -> String.substring 0 n s = s.
Proof.
  revert s. induction n as [| n IH]; intros s Hl.
  - destruct s; [reflexivity | simpl in Hl; inversion Hl].
  - destruct s as [| c s]; [reflexivity |]. simpl in *.
    rewrite IH; [reflexivity |]. now apply le_S_n.
Qed.

Lemma substring_length_le (n : nat) (s : string) :
  (String.length (String.substring 0 n s) <= n)%nat.
Proof.
  revert s. induction n as [| n IH]; intros s.
  - destruct s; simpl; constructor.
  - destruct s as [| c s]; simpl; [apply Nat.le_0_l |].
    apply le_n_S, IH.
Qed.

Lemma string_length_append (a b : string) :
  String.length (a ++ b)%string = (String.length a + String.length b)%nat.
Proof. induction a as [| c a IH]; simpl; [reflexivity | now rewrite IH]. Qed.

(** X14.  The reasoning of the error fallback carries the text of the
    exception cut to its first 50 characters: a shorter text is carried
    whole, two texts with the same first 50 characters give the same
    reasoning, and the reasoning is never longer than 119 characters. *)
Theorem error_text_truncates (msg symbol : string) :
  ((String.length msg <= 50)%nat ->
   error_text msg symbol
   = ("Error during filtering (" ++ msg
      ++ "), requiring fundamental analysis as fallback")%string) /\
  (forall other,
     String.substring 0 50 other = String.substring 0 50 msg ->
     error_text other symbol = error_text msg symbol) /\
  (String.length (error_text msg symbol) <= 119)%nat.
Proof.
  unfold error_text. split; [| split].
  - intros Hl. now rewrite substring_whole.
  - intros other Hsame. now rewrite Hsame.
  - rewrite !string_length_append.
    pose proof (substring_length_le 50 msg) as Hle.
    change (String.length "Error during filtering (") with 24%nat.
    change (String.length "), requiring fundamental analysis as fallback")
      with 45%nat.
    apply (Nat.le_trans _ (24 + (50 + 45))%nat); [| apply Nat.le_refl].
    apply Nat.add_le_mono_l, Nat.add_le_mono_r, Hle.
Qed.

(** Witness of X14: a short text, and a text of 60 characters. *)
Lemma error_text_truncates_witness :
  (String.length "connection refused" <= 50)%nat /\
  error_text "connection refused" "AAPL"
  = "Error during filtering (connection refused), requiring fundamental analysis as fallback"%string /\
  error_text "012345678901234567890123456789012345678901234567890123456789" "AAPL"
  = "Error during filtering (01234567890123456789012345678901234567890123456789), requiring fundamental analysis as fallback"%string.
Proof.
  assert (Hl : (String.length "connection refused" <= 50)%nat)
    by (simpl; repeat constructor).
  split; [exact Hl |]. split.
  - exact (proj1 (error_text_truncates "connection refused" "AAPL") Hl).
  - reflexivity.
Defined.

(** ** The order in which the set of input symbols is walked *)

(** X15.  The reasoning map does not depend, as a map, on the order in
    which the set of input symbols is walked at lines 343-348: two orders
    give the same entry under every key. *)
Theorem reasoning_order_independent (first second : set_order)
    (symbols : list string) (stocks : list value) (supplied : dict) (k : string) :
  dict_get (fill_reasoning (first symbols) stocks supplied) k
  = dict_get (fill_reasoning (second symbols) stocks supplied) k.
Proof.
  destruct (in_dec string_dec k symbols) as [Hin | Hout].
  - rewrite !fill_reasoning_get_in; [reflexivity | |].
    + exact (proj2 (iterate_in second symbols k) Hin).
    + exact (proj2 (iterate_in first symbols k) Hin).
  - rewrite !fill_reasoning_get_notin; [reflexivity | |].
    + intros H. apply Hout. exact (proj1 (iterate_in second symbols k) H).
    + intros H. apply Hout. exact (proj1 (iterate_in first symbols k) H).
Qed.

(** ** [_prompt_version] *)

(** [os.path] is [posixpath] or [ntpath]: the separators of paths. *)
Inductive platform : Type := Posix | Windows.

Definition is_sep (pf : platform) (c : ascii) : bool :=
  match pf with
  | Posix => Ascii.eqb c "/"
  | Windows => Ascii.eqb c "\" || Ascii.eqb c "/"
  end.

Definition is_dot (c : ascii) : bool := Ascii.eqb c ".".

(** [s.rfind(c)] for the characters that satisfy [p]: the highest index,
    [None] for -1. *)
Fixpoint rfind (p : ascii -> bool) (s : string) : option nat :=
  match s with
  | EmptyString => None
  | String c rest =>
      match rfind p rest with
      | Some i => Some (S i)
      | None => if p c then Some 0%nat else None
      end
  end.

(** Some character of [s] is not [c]. *)
Fixpoint has_other (c : ascii) (s : string) : bool :=
  match s with
  | EmptyString => false
  | String x rest => negb (Ascii.eqb x c) || has_other c rest
  end.

(** [os.path.splitext]: the extension starts at the last dot, when that dot
    comes after the last separator and after a character of the file name
    that is not a dot. *)
Definition splitext (pf : platform) (p : string) : string * string :=
  match rfind is_dot p with
  | Some dotIndex =>
      let filenameIndex :=
        match rfind (is_sep pf) p with
        | Some sepIndex => S sepIndex
        | None => 0%nat
        end in
      if (filenameIndex <=? dotIndex)%nat
         && has_other "." (String.substring filenameIndex
                             (dotIndex - filenameIndex) p)
      then (String.substring 0%nat dotIndex p,
            String.substring dotIndex (String.length p - dotIndex) p)
      else (p, ""%string)
  | None => (p, ""%string)
  end.

(** [s.replace(old, new)] for single characters. *)
Fixpoint replace_char (old new : ascii) (s : string) : string :=
  match s with
  | EmptyString => EmptyString
  | String c rest =>
      String (if Ascii.eqb c old then new else c) (replace_char old new rest)
  end.

(** Lines 28-30. *)
Definition _prompt_version (pf : platform) (name : string) : string :=
  let base := fst (splitext pf name) in
  replace_char "_" "/" base.

(** Every character of [s] satisfies [p]. *)
Fixpoint all_chars (p : ascii -> bool) (s : string) : bool :=
  match s with
  | EmptyString => true
  | String c rest => p c && all_chars p rest
  end.

Lemma rfind_none (p : ascii -> bool) (s : string) :
  all_chars (fun c => negb (p c)) s = true -> rfind p s = None.
Proof.
  induction s as [| c s IH]; intros H; [reflexivity |].
  simpl in *. apply andb_true_iff in H. destruct H as [Hc Hs].
  rewrite IH by assumption. apply negb_true_iff in Hc. now rewrite Hc.
Qed.

Lemma rfind_last (p : ascii -> bool) (a b : string) (c : ascii) :
  p c = true -> all_chars (fun x => negb (p x)) b = true ->
  rfind p (a ++ String c b)%string = Some (String.length a).
Proof.
  intros Hc Hb. induction a as [| x a IH]; simpl.
  - rewrite rfind_none by assumption. now rewrite Hc.
  - now rewrite IH.
Qed.

Lemma all_chars_app (p : ascii -> bool) (a b : string) :
  all_chars p (a ++ b)%string = all_chars p a && all_chars p b.
Proof.
  induction a as [| c a IH]; simpl; [reflexivity |].
  now rewrite IH, andb_assoc.
Qed.

Lemma substring_prefix (a b : string) :
  String.substring 0%nat (String.length a) (a ++ b)%string = a.
Proof.
  induction a as [| c a IH]; simpl; [now destruct b | now rewrite IH].
Qed.

Lemma substring_suffix (a b : string) :
  String.substring (String.length a) (String.length b) (a ++ b)%string = b.
Proof.
  induction a as [| c a IH]; simpl; [| exact IH].
  apply substring_whole. apply Nat.le_refl.
Qed.

Lemma replace_char_clean (old new : ascii) (s : string) :
  old <> new ->
  all_chars (fun c => negb (Ascii.eqb c old)) (replace_char old new s) = true.
Proof.
  intros Hne. induction s as [| c s IH]; [reflexivity |].
  simpl. rewrite IH, andb_true_r.
  destruct (Ascii.eqb c old) eqn:Hc; [| now rewrite Hc].
  apply negb_true_iff. apply Ascii.eqb_neq. congruence.
Qed.

Lemma replace_char_length (old new : ascii) (s : string) :
  String.length (replace_char old new s) = String.length s.
Proof. induction s as [| c s IH]; simpl; [reflexivity | now rewrite IH]. Qed.

(** X16.  For a file name [stem.ext] without path separators, where [ext]
    has no dot and [stem] has a character that is not a dot, the prompt
    version is the stem with every underscore turned into a slash: the
    extension is dropped with its dot. *)
Theorem prompt_version_of_file (pf : platform) (stem ext : string) :
  all_chars (fun c => negb (is_sep pf c)) stem = true ->
  all_chars (fun c => negb (is_sep pf c)) ext = true ->
  all_chars (fun c => negb (is_dot c)) ext = true ->
  has_other "." stem = true ->
  splitext pf (stem ++ "." ++ ext)%string = (stem, ("." ++ ext)%string) /\
  _prompt_version pf (stem ++ "." ++ ext)%string = replace_char "_" "/" stem.
Proof.
  intros Hstem Hext Hdots Hother.
  assert (Hsplit : splitext pf (stem ++ "." ++ ext)%string
                   = (stem, ("." ++ ext)%string)).
  { unfold splitext.
    change (stem ++ "." ++ ext)%string with (stem ++ String "." ext)%string.
    rewrite (rfind_last is_dot stem ext ".") by (assumption || reflexivity).
    rewrite rfind_none.
    - simpl. rewrite Nat.sub_0_r, substring_prefix, Hother.
      rewrite string_length_append, Nat.add_comm, Nat.add_sub.
      now rewrite (substring_suffix stem (String "." ext)).
    - rewrite all_chars_app. simpl. rewrite Hstem, Hext.
      now destruct pf. }
  split; [exact Hsplit |].
  unfold _prompt_version. now rewrite Hsplit.
Qed.

(** Witness of X16: the default prompt file. *)
Lemma prompt_version_of_file_witness :
  all_chars (fun c => negb (is_sep Posix c)) "fundamental_filter_v1" = true /\
  has_other "." "fundamental_filter_v1" = true /\
  _prompt_version Posix "fundamental_filter_v1.txt" = "fundamental/filter/v1"%string.
Proof.
  split; [reflexivity |]. split; [reflexivity |].
  exact (proj2 (prompt_version_of_file Posix "fundamental_filter_v1" "txt"
                  eq_refl eq_refl eq_refl eq_refl)).
Defined.

(** X17.  A prompt version never has an underscore, whatever the name; a
    name without a dot, and a name whose dots all come before any other
    character of the file name (as in [.hidden]), keeps all its characters,
    underscores turned into slashes. *)
Theorem prompt_version_no_underscore (pf : platform) (name : string) :
  all_chars (fun c => negb (Ascii.eqb c "_")) (_prompt_version pf name) = true /\
  (rfind is_dot name = None ->
   _prompt_version pf name = replace_char "_" "/" name) /\
  (rfind (is_sep pf) name = None ->
   forall dots rest,
     name = (dots ++ rest)%string ->
     has_other "." dots = false ->
     all_chars (fun c => negb (is_dot c)) rest = true ->
     _prompt_version pf name = replace_char "_" "/" name).
Proof.
  split; [| split].
  - unfold _prompt_version. apply replace_char_clean. discriminate.
  - intros Hnone. unfold _prompt_version, splitext. now rewrite Hnone.
  - intros Hsep dots rest -> Hdots Hrest.
    unfold _prompt_version, splitext. rewrite Hsep.
    destruct (rfind is_dot (dots ++ rest)) as [dotIndex |] eqn:Hdot;
      [| reflexivity].
    replace (has_other "." (String.substring 0%nat (dotIndex - 0%nat) (dots ++ rest)))
      with false; [now rewrite andb_false_r |].
    symmetry. rewrite Nat.sub_0_r.
    clear Hsep. revert dotIndex Hdot.
    induction dots as [| c dots IH]; intros dotIndex Hdot.
    + simpl in Hdot. rewrite rfind_none in Hdot by assumption.
      discriminate Hdot.
    + simpl in Hdots. apply orb_false_iff in Hdots. destruct Hdots as [Hc Hd].
      simpl in Hdot.
      destruct (rfind is_dot (dots ++ rest)) as [i |] eqn:Hi.
      * injection Hdot as <-. simpl. rewrite Hc. simpl. now apply IH.
      * destruct (is_dot c); [| discriminate Hdot].
        injection Hdot as <-. reflexivity.
Qed.

(** Witness of X17: a hidden file keeps its name. *)
Lemma prompt_version_no_underscore_witness :
  rfind (is_sep Posix) ".filter_rules" = None /\
  has_other "." "." = false /\
  _prompt_version Posix ".filter_rules" = ".filter/rules"%string /\
  _prompt_version Posix "filter_rules" = "filter/rules"%string.
Proof.
  destruct (prompt_version_no_underscore Posix ".filter_rules")
    as (_ & _ & Hhidden).
  destruct (prompt_version_no_underscore Posix "filter_rules")
    as (_ & Hplain & _).
  split; [reflexivity |]. split; [reflexivity |]. split.
  - exact (Hhidden eq_refl "."%string "filter_rules"%string eq_refl eq_refl
             eq_refl).
  - exact (Hplain eq_refl).
Defined.
